(** * tick-api: a shallow embedding of the Tick v2 client

    The development follows the layout of the TypeScript sources:

    - [src/api/util.ts]      the process-wide configuration cell, [createUrl],
                             [createHeaders];
    - [src/api/users.ts], [clients.ts], [projects.ts], [tasks.ts],
      [entries.ts]           one function per remote endpoint;
    - [src/client.ts]        the [TickClient] facade, its constructor,
                             [validateConfig] and [withConfig].

    JavaScript values are an inductive type.  Strings are the UTF-8 bytes of
    well-formed JavaScript strings, numbers are the integers (identifiers,
    page numbers and HTTP statuses are; their decimal form is what
    [String(n)] prints below 10^21).  Configuration objects live in a store
    indexed by references, because the facade copies the caller's object and
    the global cell aliases the copy; parameter objects are only read during
    a call and are passed by value, as property lists in insertion order.

    An asynchronous function is a state transformer returning a settled
    promise: [Resolved v] or [Rejected e].  The transport ([fetch]) and the
    schema validator (zod's [parse]) are the two external collaborators; they
    are the fields of the class [Platform]. *)

From stdpp Require Import gmap strings list fin_maps.
From Stdlib Require Import ZArith Ascii String DecimalString Lia.

#[local] Set Warnings "-register-all".
#[local] Open Scope string_scope.
#[local] Open Scope Z_scope.
#[local] Arguments String.append : simpl nomatch.

(* ===================================================================== *)
(** * JavaScript strings                                                  *)
(* ===================================================================== *)

Module JsString.

Definition bytes (l : list nat) : string :=
  string_of_list_ascii (List.map ascii_of_nat l).

(** The one-character strings that cannot be typed in a literal. *)
Definition dquote : string := bytes [34%nat].
Definition backslash : string := bytes [92%nat].

Fixpoint strip_prefix (p s : string) : option string :=
  match p, s with
  | EmptyString, _ => Some s
  | String a p', String b s' =>
      if Ascii.eqb a b then strip_prefix p' s' else None
  | String _ _, EmptyString => None
  end.

Fixpoint rev_onto (s acc : string) : string :=
  match s with
  | EmptyString => acc
  | String a s' => rev_onto s' (String a acc)
  end.

Definition rev (s : string) : string := rev_onto s EmptyString.

(** [String.prototype.includes]. *)
Fixpoint includes (s needle : string) : bool :=
  match strip_prefix needle s with
  | Some _ => true
  | None =>
      match s with
      | EmptyString => false
      | String _ s' => includes s' needle
      end
  end.

(** ECMAScript WhiteSpace and LineTerminator code points, each by its
    UTF-8 encoding: TAB, LF, VT, FF, CR, SP, U+00A0, U+1680,
    U+2000..U+200A, U+2028, U+2029, U+202F, U+205F, U+3000, U+FEFF. *)
Definition WhiteSpace : list string :=
  List.map bytes
    [ [9]; [10]; [11]; [12]; [13]; [32];
      [194; 160];
      [225; 154; 128];
      [226; 128; 128]; [226; 128; 129]; [226; 128; 130]; [226; 128; 131];
      [226; 128; 132]; [226; 128; 133]; [226; 128; 134]; [226; 128; 135];
      [226; 128; 136]; [226; 128; 137]; [226; 128; 138];
      [226; 128; 168]; [226; 128; 169]; [226; 128; 175];
      [226; 129; 159];
      [227; 128; 128];
      [239; 187; 191] ]%nat.

(** Drops one leading character of the table [ws], if there is one. *)
Fixpoint strip_one (ws : list string) (s : string) : option string :=
  match ws with
  | [] => None
  | w :: ws' =>
      match strip_prefix w s with
      | Some r => Some r
      | None => strip_one ws' s
      end
  end.

Fixpoint strip_all (fuel : nat) (ws : list string) (s : string) : string :=
  match fuel with
  | O => s
  | S fuel' =>
      match strip_one ws s with
      | Some r => strip_all fuel' ws r
      | None => s
      end
  end.

Definition trimStart (s : string) : string :=
  strip_all (String.length s) WhiteSpace s.

Definition trimEnd (s : string) : string :=
  rev (strip_all (String.length s) (List.map rev WhiteSpace) (rev s)).

(** [String.prototype.trim]. *)
Definition trim (s : string) : string := trimEnd (trimStart s).

Fixpoint join (sep : string) (l : list string) : string :=
  match l with
  | [] => EmptyString
  | [x] => x
  | x :: rest => x +:+ sep +:+ join sep rest
  end.

Definition isEmpty (s : string) : bool :=
  match s with EmptyString => true | _ => false end.

Definition hexDigit (upper : bool) (n : nat) : ascii :=
  if (n <? 10)%nat then ascii_of_nat (48 + n)
  else ascii_of_nat ((if upper then 55 else 87) + n).

(** Two hexadecimal digits of a byte. *)
Definition hex2 (upper : bool) (a : ascii) : string :=
  let n := nat_of_ascii a in
  String (hexDigit upper (n / 16)) (String (hexDigit upper (n mod 16)) EmptyString).

End JsString.

(* ===================================================================== *)
(** * JavaScript values                                                   *)
(* ===================================================================== *)

Inductive JsValue : Type :=
| JUndefined
| JNull
| JBool (b : bool)
| JNum (n : Z)
| JStr (s : string)
| JObj (props : list (string * JsValue))
| JArr (items : list JsValue).

(** An object literal: its own enumerable properties in insertion order
    (keys are pairwise distinct in a JavaScript object). *)
Definition JsObject : Type := list (string * JsValue).

Module Js.

(** Property read [o.k]: a missing property reads as [undefined]. *)
Fixpoint get (o : JsObject) (k : string) : JsValue :=
  match o with
  | [] => JUndefined
  | (k', v) :: o' => if String.eqb k' k then v else get o' k
  end.

(** ToBoolean. *)
Definition truthy (v : JsValue) : bool :=
  match v with
  | JUndefined | JNull => false
  | JBool b => b
  | JNum n => negb (n =? 0)
  | JStr s => negb (JsString.isEmpty s)
  | JObj _ | JArr _ => true
  end.

Definition typeof (v : JsValue) : string :=
  match v with
  | JUndefined => "undefined"
  | JNull => "object"
  | JBool _ => "boolean"
  | JNum _ => "number"
  | JStr _ => "string"
  | JObj _ | JArr _ => "object"
  end.

(** Number::toString for an integer. *)
Definition Number_toString (n : Z) : string :=
  NilEmpty.string_of_int (Z.to_int n).

(** ToString, as [String(v)] and template literals apply it. *)
Fixpoint ToString (v : JsValue) : string :=
  match v with
  | JUndefined => "undefined"
  | JNull => "null"
  | JBool true => "true"
  | JBool false => "false"
  | JNum n => Number_toString n
  | JStr s => s
  | JObj _ => "[object Object]"
  | JArr items =>
      JsString.join ","
        (List.map (fun x => match x with
                            | JUndefined | JNull => EmptyString
                            | _ => ToString x
                            end) items)
  end.

Definition is_undefined (v : JsValue) : bool :=
  match v with JUndefined => true | _ => false end.

(** Property write [o[k] = v]: replaces the value of an existing key,
    adds a new key at the end. *)
Fixpoint set (o : JsObject) (k : string) (v : JsValue) : JsObject :=
  match o with
  | [] => [(k, v)]
  | (k', v') :: o' =>
      if String.eqb k' k then (k', v) :: o' else (k', v') :: set o' k v
  end.

(** [Object.entries]. *)
Definition Object_entries (o : JsObject) : list (string * JsValue) := o.

End Js.

(* ===================================================================== *)
(** * JSON.stringify                                                      *)
(* ===================================================================== *)

Module JSON.

(** QuoteJSONString on one byte; bytes of multi-byte characters pass. *)
Definition quoteChar (a : ascii) : string :=
  let n := nat_of_ascii a in
  if (n =? 8)%nat then JsString.backslash +:+ "b"
  else if (n =? 9)%nat then JsString.backslash +:+ "t"
  else if (n =? 10)%nat then JsString.backslash +:+ "n"
  else if (n =? 12)%nat then JsString.backslash +:+ "f"
  else if (n =? 13)%nat then JsString.backslash +:+ "r"
  else if (n =? 34)%nat then JsString.backslash +:+ JsString.dquote
  else if (n =? 92)%nat then JsString.backslash +:+ JsString.backslash
  else if (n <? 32)%nat then JsString.backslash +:+ "u00" +:+ JsString.hex2 false a
  else String a EmptyString.

Fixpoint quoteBody (s : string) : string :=
  match s with
  | EmptyString => EmptyString
  | String a s' => quoteChar a +:+ quoteBody s'
  end.

Definition quote (s : string) : string :=
  JsString.dquote +:+ quoteBody s +:+ JsString.dquote.

(** SerializeJSONProperty: [None] stands for the result [undefined]. *)
Fixpoint stringify (v : JsValue) : option string :=
  match v with
  | JUndefined => None
  | JNull => Some "null"
  | JBool true => Some "true"
  | JBool false => Some "false"
  | JNum n => Some (Js.Number_toString n)
  | JStr s => Some (quote s)
  | JObj props =>
      let members :=
        (fix go (ps : list (string * JsValue)) : list string :=
           match ps with
           | [] => []
           | (k, x) :: ps' =>
               match stringify x with
               | Some sx => (quote k +:+ ":" +:+ sx) :: go ps'
               | None => go ps'
               end
           end) props in
      Some ("{" +:+ JsString.join "," members +:+ "}")
  | JArr items =>
      let elements :=
        (fix go (xs : list JsValue) : list string :=
           match xs with
           | [] => []
           | x :: xs' =>
               match stringify x with
               | Some sx => sx :: go xs'
               | None => "null" :: go xs'
               end
           end) items in
      Some ("[" +:+ JsString.join "," elements +:+ "]")
  end.

End JSON.

(** The members of an object as [JSON.stringify] prints them, one per
    property whose value has a JSON text. *)
Definition JSON_members : list (string * JsValue) -> list string :=
  fix go (ps : list (string * JsValue)) : list string :=
    match ps with
    | [] => []
    | (k, x) :: ps' =>
        match JSON.stringify x with
        | Some sx => (JSON.quote k +:+ ":" +:+ sx) :: go ps'
        | None => go ps'
        end
    end.

(* ===================================================================== *)
(** * URLSearchParams                                                     *)
(* ===================================================================== *)

Module URLSearchParams.

(** The list of name-value pairs of a URLSearchParams object. *)
Definition t : Type := list (string * string).

Definition new : t := [].

Definition append (q : t) (name value : string) : t := (q ++ [(name, value)])%list.

(** The application/x-www-form-urlencoded percent-encode set leaves
    ASCII alphanumerics and [* - . _] alone. *)
Definition unreserved (a : ascii) : bool :=
  let n := nat_of_ascii a in
  ((48 <=? n) && (n <=? 57) || (65 <=? n) && (n <=? 90) || (97 <=? n) && (n <=? 122)
   || (n =? 42) || (n =? 45) || (n =? 46) || (n =? 95))%nat.

Definition encodeByte (a : ascii) : string :=
  if unreserved a then String a EmptyString
  else if (nat_of_ascii a =? 32)%nat then "+"
  else "%" +:+ JsString.hex2 true a.

Fixpoint encode (s : string) : string :=
  match s with
  | EmptyString => EmptyString
  | String a s' => encodeByte a +:+ encode s'
  end.

(** One name-value pair, serialized. *)
Definition pair_text (p : string * string) : string :=
  let '(n, v) := p in encode n +:+ "=" +:+ encode v.

(** [URLSearchParams.prototype.toString]. *)
Definition toString (q : t) : string := JsString.join "&" (List.map pair_text q).

(** The reading direction, as the server applies it: the
    application/x-www-form-urlencoded parser of the URL standard. *)
Definition unhexDigit (a : ascii) : option nat :=
  let n := nat_of_ascii a in
  if ((48 <=? n) && (n <=? 57))%nat then Some (n - 48)%nat
  else if ((65 <=? n) && (n <=? 70))%nat then Some (n - 55)%nat
  else if ((97 <=? n) && (n <=? 102))%nat then Some (n - 87)%nat
  else None.

Fixpoint decode (s : string) : string :=
  match s with
  | EmptyString => EmptyString
  | String c rest =>
      if (nat_of_ascii c =? 43)%nat then String (ascii_of_nat 32) (decode rest)
      else if (nat_of_ascii c =? 37)%nat then
        match rest with
        | String h (String l rest') =>
            match unhexDigit h, unhexDigit l with
            | Some x, Some y => String (ascii_of_nat (16 * x + y)) (decode rest')
            | _, _ => String c (decode rest)
            end
        | _ => String c (decode rest)
        end
      else String c (decode rest)
  end.

(** The pieces of [s] between occurrences of [sep]. *)
Fixpoint fields (sep : ascii) (s : string) : list string :=
  match s with
  | EmptyString => [EmptyString]
  | String c rest =>
      if Ascii.eqb c sep then EmptyString :: fields sep rest
      else match fields sep rest with
           | f :: fs => String c f :: fs
           | [] => [String c EmptyString]
           end
  end.

(** [s] cut at the first occurrence of [sep]. *)
Fixpoint cut (sep : ascii) (s : string) : string * string :=
  match s with
  | EmptyString => (EmptyString, EmptyString)
  | String c rest =>
      if Ascii.eqb c sep then (EmptyString, rest)
      else let '(a, b) := cut sep rest in (String c a, b)
  end.

Definition parse (s : string) : t :=
  List.map (fun field => let '(n, v) := cut "=" field in (decode n, decode v))
           (List.filter (fun field => negb (JsString.isEmpty field)) (fields "&" s)).

End URLSearchParams.

(* ===================================================================== *)
(** * Promises, the store and the transport                               *)
(* ===================================================================== *)

(** A thrown value.  The library itself only ever throws [new Error(msg)];
    the other names come from the platform (a [TypeError] of the engine or
    of [fetch], a [SyntaxError] of [response.json()], zod's [ZodError]). *)
Record JsError : Type := { error_name : string; error_message : string }.

Definition Error (message : string) : JsError :=
  {| error_name := "Error"; error_message := message |}.

Definition TypeError (message : string) : JsError :=
  {| error_name := "TypeError"; error_message := message |}.

(** How a promise settles (a synchronous [throw] in an [async] function
    rejects its promise, so one type serves both). *)
Inductive Outcome (A : Type) : Type :=
| Resolved (value : A)
| Rejected (reason : JsError).
Arguments Resolved {A} value.
Arguments Rejected {A} reason.

(** The second argument of [fetch(url, init)] together with the URL. *)
Record Request : Type :=
  { url : string; method : string; headers : JsObject; body : option string }.

Record Response : Type :=
  { status : Z; statusText : string; json : Outcome JsValue }.

(** [Response.ok] of the Fetch standard: the status is in 200..299. *)
Definition ok (r : Response) : bool := (200 <=? status r) && (status r <=? 299).

(** The zod schemas the endpoint functions parse responses with. *)
Inductive Schema : Type :=
| User | Client | ClientWithProjects | Project | ProjectWithDetails
| Task | TaskWithDetails | Entry | EntryWithTask
| z_array (element : Schema).

(** The external collaborators.  The answer of the transport may depend on
    the requests sent before ([history], oldest first). *)
Class Platform : Type :=
  { transport : forall (history : list Request), Request -> Outcome Response;
    zod_parse : Schema -> JsValue -> Outcome JsValue }.

(** References to configuration objects. *)
Definition loc : Type := positive.

(** [heap] holds the configuration objects, [globalConfig] is the module
    variable of util.ts ([None] is [null]), [requests] records the calls
    made to [fetch], oldest first. *)
Record State : Type :=
  { heap : gmap loc JsObject;
    globalConfig : option loc;
    requests : list Request }.

Definition M (A : Type) : Type := State -> Outcome A * State.

Definition ret {A} (a : A) : M A := fun s => (Resolved a, s).

Definition throw {A} (e : JsError) : M A := fun s => (Rejected e, s).

Definition bind {A B} (m : M A) (k : A -> M B) : M B :=
  fun s =>
    match m s with
    | (Resolved a, s') => k a s'
    | (Rejected e, s') => (Rejected e, s')
    end.

(** [try { body } finally { cleanup }]: the cleanup runs however the body
    completes; the body's completion stands unless the cleanup throws. *)
Definition try_finally {A} (body : M A) (cleanup : M unit) : M A :=
  fun s =>
    let '(r, s1) := body s in
    match cleanup s1 with
    | (Resolved _, s2) => (r, s2)
    | (Rejected e, s2) => (Rejected e, s2)
    end.

(** Awaiting (or using the value of) something that has already settled. *)
Definition settle {A} (o : Outcome A) : M A := fun s => (o, s).

Declare Scope js_scope.
Delimit Scope js_scope with js.
Notation "x <- c ;; k" := (bind c (fun x => k))
  (at level 100, c at next level, right associativity) : js_scope.
Notation "c ;;; k" := (bind c (fun _ => k))
  (at level 100, right associativity) : js_scope.
#[local] Open Scope js_scope.

(** Allocation of an object literal. *)
Definition alloc (o : JsObject) : M loc :=
  fun s =>
    let l := fresh (dom (heap s)) in
    (Resolved l,
     {| heap := <[l := o]> (heap s);
        globalConfig := globalConfig s;
        requests := requests s |}).

(** Property read through a reference.  Every reference the library holds
    was allocated, so the [TypeError] branch is only there for totality. *)
Definition prop (l : loc) (k : string) : M JsValue :=
  fun s =>
    match heap s !! l with
    | Some o => (Resolved (Js.get o k), s)
    | None => (Rejected (TypeError "Cannot read properties of undefined"), s)
    end.

(** [await fetch(url, init)]. *)
Definition fetch `{Platform} (req : Request) : M Response :=
  fun s =>
    (transport (requests s) req,
     {| heap := heap s;
        globalConfig := globalConfig s;
        requests := (requests s ++ [req])%list |}).

Definition run {A} (m : M A) (s : State) : Outcome A * State := m s.
Definition outcome {A} (m : M A) (s : State) : Outcome A := fst (m s).
Definition final {A} (m : M A) (s : State) : State := snd (m s).

(* ===================================================================== *)
(** * src/api/util.ts                                                     *)
(* ===================================================================== *)

Module Util.

Definition BASE_URL : string := "https://www.tickspot.com".
Definition API_VERSION : string := "v2".

Definition setGlobalConfig (config : option loc) : M unit :=
  fun s =>
    (Resolved tt,
     {| heap := heap s; globalConfig := config; requests := requests s |}).

Definition getGlobalConfig : M (option loc) :=
  fun s => (Resolved (globalConfig s), s).

Definition config_not_set : string :=
  "Global configuration is not set. Please call setGlobalConfig() first.".

(** [includeContentType = true] is a default parameter: [None] is a call
    that leaves the argument out. *)
Definition createHeaders (includeContentType : option bool) : M JsObject :=
  let includeContentType := default true includeContentType in
  cell <- getGlobalConfig ;;
  match cell with
  | None => throw (Error config_not_set)
  | Some cfg =>
      apiToken <- prop cfg "apiToken" ;;
      userAgent <- prop cfg "userAgent" ;;
      let headers : JsObject :=
        [ ("Authorization", JStr ("Token token=" +:+ Js.ToString apiToken));
          ("User-Agent", userAgent) ] in
      let headers :=
        if includeContentType
        then Js.set headers "Content-Type" (JStr "application/json; charset=utf-8")
        else headers in
      ret headers
  end.

Definition createUrl (path : string) : M string :=
  cell <- getGlobalConfig ;;
  match cell with
  | None => throw (Error config_not_set)
  | Some cfg =>
      subscriptionId <- prop cfg "subscriptionId" ;;
      ret (BASE_URL +:+ "/" +:+ Js.ToString subscriptionId +:+ "/api/"
           +:+ API_VERSION +:+ "/" +:+ path)
  end.

End Util.

(* ===================================================================== *)
(** * The endpoint functions                                              *)
(* ===================================================================== *)

(** [await response.json()] and [schema.parse(data)]. *)
Definition Response_json (response : Response) : M JsValue := settle (json response).

Definition parse `{Platform} (schema : Schema) (data : JsValue) : M JsValue :=
  settle (zod_parse schema data).

(** ** src/api/users.ts *)
Module Users.
Section WithPlatform.
Context `{Platform}.

Definition getUsers : M JsValue :=
  url <- Util.createUrl "users.json" ;;
  headers <- Util.createHeaders (Some false) ;;
  response <- fetch {| url := url; method := "GET"; headers := headers; body := None |} ;;
  if negb (ok response) then
    throw (Error ("Failed to fetch users: "
                  +:+ Js.Number_toString (status response) +:+ " " +:+ statusText response))
  else
    data <- Response_json response ;;
    parse (z_array User) data.

Definition getDeletedUsers : M JsValue :=
  url <- Util.createUrl "users/deleted.json" ;;
  headers <- Util.createHeaders (Some false) ;;
  response <- fetch {| url := url; method := "GET"; headers := headers; body := None |} ;;
  if status response =? 403 then
    throw (Error "Forbidden: Only administrators can access deleted users")
  else
  if negb (ok response) then
    throw (Error ("Failed to fetch deleted users: "
                  +:+ Js.Number_toString (status response) +:+ " " +:+ statusText response))
  else
    data <- Response_json response ;;
    parse (z_array User) data.

Definition createUser (params : JsObject) : M JsValue :=
  url <- Util.createUrl "users.json" ;;
  headers <- Util.createHeaders (Some true) ;;
  response <- fetch {| url := url; method := "POST"; headers := headers;
                       body := JSON.stringify (JObj [("user", JObj params)]) |} ;;
  if status response =? 403 then throw (Error "Forbidden: Only administrators can create users")
  else
  if negb (ok response) then
    throw (Error ("Failed to create user: "
                  +:+ Js.Number_toString (status response) +:+ " " +:+ statusText response))
  else
    data <- Response_json response ;;
    parse User data.

End WithPlatform.
End Users.

(** ** src/api/clients.ts *)
Module Clients.
Section WithPlatform.
Context `{Platform}.

Definition getClients : M JsValue :=
  url <- Util.createUrl "clients.json" ;;
  headers <- Util.createHeaders (Some false) ;;
  response <- fetch {| url := url; method := "GET"; headers := headers; body := None |} ;;
  if negb (ok response) then
    throw (Error ("Failed to fetch clients: "
                  +:+ Js.Number_toString (status response) +:+ " " +:+ statusText response))
  else
    data <- Response_json response ;;
    parse (z_array Client) data.

Definition getAllClients : M JsValue :=
  url <- Util.createUrl "clients/all.json" ;;
  headers <- Util.createHeaders (Some false) ;;
  response <- fetch {| url := url; method := "GET"; headers := headers; body := None |} ;;
  if negb (ok response) then
    throw (Error ("Failed to fetch all clients: "
                  +:+ Js.Number_toString (status response) +:+ " " +:+ statusText response))
  else
    data <- Response_json response ;;
    parse (z_array Client) data.

Definition getClient (id : Z) : M JsValue :=
  url <- Util.createUrl ("clients/" +:+ Js.Number_toString id +:+ ".json") ;;
  headers <- Util.createHeaders (Some false) ;;
  response <- fetch {| url := url; method := "GET"; headers := headers; body := None |} ;;
  if negb (ok response) then
    throw (Error ("Failed to fetch client with ID " +:+ Js.Number_toString id +:+ ": "
                  +:+ Js.Number_toString (status response) +:+ " " +:+ statusText response))
  else
    data <- Response_json response ;;
    parse ClientWithProjects data.

Definition createClient (params : JsObject) : M JsValue :=
  url <- Util.createUrl "clients.json" ;;
  headers <- Util.createHeaders None ;;
  response <- fetch {| url := url; method := "POST"; headers := headers;
                       body := JSON.stringify (JObj params) |} ;;
  if status response =? 403 then
    throw (Error "Forbidden: Only administrators can create clients")
  else
  if negb (ok response) then
    throw (Error ("Failed to create client: "
                  +:+ Js.Number_toString (status response) +:+ " " +:+ statusText response))
  else
    data <- Response_json response ;;
    parse Client data.

Definition updateClient (id : Z) (params : JsObject) : M JsValue :=
  url <- Util.createUrl ("clients/" +:+ Js.Number_toString id +:+ ".json") ;;
  headers <- Util.createHeaders None ;;
  response <- fetch {| url := url; method := "PUT"; headers := headers;
                       body := JSON.stringify (JObj params) |} ;;
  if status response =? 403 then
    throw (Error "Forbidden: Only administrators can update clients")
  else
  if negb (ok response) then
    throw (Error ("Failed to update client with ID " +:+ Js.Number_toString id +:+ ": "
                  +:+ Js.Number_toString (status response) +:+ " " +:+ statusText response))
  else
    data <- Response_json response ;;
    parse Client data.

Definition deleteClient (id : Z) : M JsValue :=
  url <- Util.createUrl ("clients/" +:+ Js.Number_toString id +:+ ".json") ;;
  headers <- Util.createHeaders (Some false) ;;
  response <- fetch {| url := url; method := "DELETE"; headers := headers; body := None |} ;;
  if status response =? 403 then
    throw (Error "Forbidden: Only administrators can delete clients")
  else
  if status response =? 406 then
    throw (Error "Client cannot be deleted because it still has associated projects")
  else
  if negb (ok response) then
    throw (Error ("Failed to delete client with ID " +:+ Js.Number_toString id +:+ ": "
                  +:+ Js.Number_toString (status response) +:+ " " +:+ statusText response))
  else
    ret JUndefined.

End WithPlatform.
End Clients.

(** ** src/api/projects.ts *)
Module Projects.
Section WithPlatform.
Context `{Platform}.

(** [params: GetProjectsParams = {}] is a default parameter: [None] is a
    call that leaves the argument out (or passes [undefined]). *)
Definition getProjects (params : option JsObject) : M JsValue :=
  let params := default [] params in
  let queryParams := URLSearchParams.new in
  let queryParams :=
    if Js.truthy (Js.get params "page")
    then URLSearchParams.append queryParams "page" (Js.ToString (Js.get params "page"))
    else queryParams in
  let queryString := URLSearchParams.toString queryParams in
  url <- Util.createUrl (if Js.truthy (JStr queryString)
                         then "projects.json?" +:+ queryString
                         else "projects.json") ;;
  headers <- Util.createHeaders (Some false) ;;
  response <- fetch {| url := url; method := "GET"; headers := headers; body := None |} ;;
  if negb (ok response) then
    throw (Error ("Failed to fetch projects: "
                  +:+ Js.Number_toString (status response) +:+ " " +:+ statusText response))
  else
    data <- Response_json response ;;
    parse (z_array Project) data.

Definition getClosedProjects (params : option JsObject) : M JsValue :=
  let params := default [] params in
  let queryParams := URLSearchParams.new in
  let queryParams :=
    if Js.truthy (Js.get params "page")
    then URLSearchParams.append queryParams "page" (Js.ToString (Js.get params "page"))
    else queryParams in
  let queryString := URLSearchParams.toString queryParams in
  url <- Util.createUrl (if Js.truthy (JStr queryString)
                         then "projects/closed.json?" +:+ queryString
                         else "projects/closed.json") ;;
  headers <- Util.createHeaders (Some false) ;;
  response <- fetch {| url := url; method := "GET"; headers := headers; body := None |} ;;
  if negb (ok response) then
    throw (Error ("Failed to fetch closed projects: "
                  +:+ Js.Number_toString (status response) +:+ " " +:+ statusText response))
  else
    data <- Response_json response ;;
    parse (z_array Project) data.

Definition getProject (id : Z) : M JsValue :=
  url <- Util.createUrl ("projects/" +:+ Js.Number_toString id +:+ ".json") ;;
  headers <- Util.createHeaders (Some false) ;;
  response <- fetch {| url := url; method := "GET"; headers := headers; body := None |} ;;
  if negb (ok response) then
    throw (Error ("Failed to fetch project with ID " +:+ Js.Number_toString id +:+ ": "
                  +:+ Js.Number_toString (status response) +:+ " " +:+ statusText response))
  else
    data <- Response_json response ;;
    parse ProjectWithDetails data.

Definition createProject (params : JsObject) : M JsValue :=
  url <- Util.createUrl "projects.json" ;;
  headers <- Util.createHeaders None ;;
  response <- fetch {| url := url; method := "POST"; headers := headers;
                       body := JSON.stringify (JObj [("project", JObj params)]) |} ;;
  if status response =? 403 then
    throw (Error "Forbidden: Only administrators can create projects")
  else
  if negb (ok response) then
    throw (Error ("Failed to create project: "
                  +:+ Js.Number_toString (status response) +:+ " " +:+ statusText response))
  else
    data <- Response_json response ;;
    parse Project data.

Definition updateProject (id : Z) (params : JsObject) : M JsValue :=
  url <- Util.createUrl ("projects/" +:+ Js.Number_toString id +:+ ".json") ;;
  headers <- Util.createHeaders None ;;
  response <- fetch {| url := url; method := "PUT"; headers := headers;
                       body := JSON.stringify (JObj [("project", JObj params)]) |} ;;
  if status response =? 403 then
    throw (Error "Forbidden: Only administrators can update projects")
  else
  if negb (ok response) then
    throw (Error ("Failed to update project with ID " +:+ Js.Number_toString id +:+ ": "
                  +:+ Js.Number_toString (status response) +:+ " " +:+ statusText response))
  else
    data <- Response_json response ;;
    parse Project data.

Definition deleteProject (id : Z) : M JsValue :=
  url <- Util.createUrl ("projects/" +:+ Js.Number_toString id +:+ ".json") ;;
  headers <- Util.createHeaders (Some false) ;;
  response <- fetch {| url := url; method := "DELETE"; headers := headers; body := None |} ;;
  if status response =? 403 then
    throw (Error "Forbidden: Only administrators can delete projects")
  else
  if negb (ok response) then
    throw (Error ("Failed to delete project with ID " +:+ Js.Number_toString id +:+ ": "
                  +:+ Js.Number_toString (status response) +:+ " " +:+ statusText response))
  else
    ret JUndefined.

End WithPlatform.
End Projects.

(** ** src/api/tasks.ts *)
Module Tasks.
Section WithPlatform.
Context `{Platform}.

Definition getProjectTasks (projectId : Z) : M JsValue :=
  url <- Util.createUrl ("projects/" +:+ Js.Number_toString projectId +:+ "/tasks.json") ;;
  headers <- Util.createHeaders (Some false) ;;
  response <- fetch {| url := url; method := "GET"; headers := headers; body := None |} ;;
  if negb (ok response) then
    throw (Error ("Failed to fetch tasks for project " +:+ Js.Number_toString projectId +:+ ": "
                  +:+ Js.Number_toString (status response) +:+ " " +:+ statusText response))
  else
    data <- Response_json response ;;
    parse (z_array Task) data.

Definition getTasks : M JsValue :=
  url <- Util.createUrl "tasks.json" ;;
  headers <- Util.createHeaders (Some false) ;;
  response <- fetch {| url := url; method := "GET"; headers := headers; body := None |} ;;
  if negb (ok response) then
    throw (Error ("Failed to fetch tasks: "
                  +:+ Js.Number_toString (status response) +:+ " " +:+ statusText response))
  else
    data <- Response_json response ;;
    parse (z_array Task) data.

Definition getProjectClosedTasks (projectId : Z) : M JsValue :=
  url <- Util.createUrl ("projects/" +:+ Js.Number_toString projectId +:+ "/tasks/closed.json") ;;
  headers <- Util.createHeaders (Some false) ;;
  response <- fetch {| url := url; method := "GET"; headers := headers; body := None |} ;;
  if negb (ok response) then
    throw (Error ("Failed to fetch closed tasks for project "
                  +:+ Js.Number_toString projectId +:+ ": "
                  +:+ Js.Number_toString (status response) +:+ " " +:+ statusText response))
  else
    data <- Response_json response ;;
    parse (z_array Task) data.

Definition getClosedTasks : M JsValue :=
  url <- Util.createUrl "tasks/closed.json" ;;
  headers <- Util.createHeaders (Some false) ;;
  response <- fetch {| url := url; method := "GET"; headers := headers; body := None |} ;;
  if negb (ok response) then
    throw (Error ("Failed to fetch closed tasks: "
                  +:+ Js.Number_toString (status response) +:+ " " +:+ statusText response))
  else
    data <- Response_json response ;;
    parse (z_array Task) data.

Definition getTask (id : string) : M JsValue :=
  url <- Util.createUrl ("tasks/" +:+ id +:+ ".json") ;;
  headers <- Util.createHeaders (Some false) ;;
  response <- fetch {| url := url; method := "GET"; headers := headers; body := None |} ;;
  if negb (ok response) then
    throw (Error ("Failed to fetch task with ID " +:+ id +:+ ": "
                  +:+ Js.Number_toString (status response) +:+ " " +:+ statusText response))
  else
    data <- Response_json response ;;
    parse TaskWithDetails data.

Definition createTask (params : JsObject) : M JsValue :=
  url <- Util.createUrl "tasks.json" ;;
  headers <- Util.createHeaders None ;;
  response <- fetch {| url := url; method := "POST"; headers := headers;
                       body := JSON.stringify (JObj params) |} ;;
  if negb (ok response) then
    if status response =? 403 then
      throw (Error "Failed to create task: Only administrators can create tasks")
    else
      throw (Error ("Failed to create task: "
                    +:+ Js.Number_toString (status response) +:+ " " +:+ statusText response))
  else
    data <- Response_json response ;;
    parse Task data.

Definition updateTask (id : string) (params : JsObject) : M JsValue :=
  url <- Util.createUrl ("tasks/" +:+ id +:+ ".json") ;;
  headers <- Util.createHeaders None ;;
  response <- fetch {| url := url; method := "PUT"; headers := headers;
                       body := JSON.stringify (JObj params) |} ;;
  if negb (ok response) then
    if status response =? 403 then
      throw (Error "Failed to update task: Only administrators can update tasks")
    else
      throw (Error ("Failed to update task with ID " +:+ id +:+ ": "
                    +:+ Js.Number_toString (status response) +:+ " " +:+ statusText response))
  else
    data <- Response_json response ;;
    parse Task data.

Definition deleteTask (id : string) : M JsValue :=
  url <- Util.createUrl ("tasks/" +:+ id +:+ ".json") ;;
  headers <- Util.createHeaders (Some false) ;;
  response <- fetch {| url := url; method := "DELETE"; headers := headers; body := None |} ;;
  if negb (ok response) then
    if status response =? 403 then
      throw (Error "Failed to delete task: Only administrators can delete tasks")
    else
    if status response =? 406 then
      throw (Error "Failed to delete task: Only tasks without any entries can be deleted")
    else
      throw (Error ("Failed to delete task with ID " +:+ id +:+ ": "
                    +:+ Js.Number_toString (status response) +:+ " " +:+ statusText response))
  else
    ret JUndefined.

End WithPlatform.
End Tasks.

(** ** src/api/entries.ts *)
Module Entries.
Section WithPlatform.
Context `{Platform}.

Definition date_range_required : string :=
  "Either start_date and end_date OR updated_at must be provided".

Definition getEntries (params : JsObject) : M JsValue :=
  if (negb (Js.truthy (Js.get params "start_date"))
      || negb (Js.truthy (Js.get params "end_date")))
     && negb (Js.truthy (Js.get params "updated_at"))
  then throw (Error date_range_required)
  else
    let queryParams :=
      fold_left
        (fun queryParams '(key, value) =>
           if negb (Js.is_undefined value)
           then URLSearchParams.append queryParams key (Js.ToString value)
           else queryParams)
        (Js.Object_entries params) URLSearchParams.new in
    url <- Util.createUrl ("entries.json?" +:+ URLSearchParams.toString queryParams) ;;
    headers <- Util.createHeaders (Some false) ;;
    response <- fetch {| url := url; method := "GET"; headers := headers; body := None |} ;;
    if negb (ok response) then
      throw (Error ("Failed to fetch entries: "
                    +:+ Js.Number_toString (status response) +:+ " " +:+ statusText response))
    else
      data <- Response_json response ;;
      parse (z_array Entry) data.

Definition getUserEntries (userId : Z) (params : JsObject) : M JsValue :=
  if (negb (Js.truthy (Js.get params "start_date"))
      || negb (Js.truthy (Js.get params "end_date")))
     && negb (Js.truthy (Js.get params "updated_at"))
  then throw (Error date_range_required)
  else
    let queryParams :=
      fold_left
        (fun queryParams '(key, value) =>
           if negb (Js.is_undefined value)
           then URLSearchParams.append queryParams key (Js.ToString value)
           else queryParams)
        (Js.Object_entries params) URLSearchParams.new in
    url <- Util.createUrl ("users/" +:+ Js.Number_toString userId +:+ "/entries.json?"
                           +:+ URLSearchParams.toString queryParams) ;;
    headers <- Util.createHeaders (Some false) ;;
    response <- fetch {| url := url; method := "GET"; headers := headers; body := None |} ;;
    if negb (ok response) then
      throw (Error ("Failed to fetch entries for user " +:+ Js.Number_toString userId +:+ ": "
                    +:+ Js.Number_toString (status response) +:+ " " +:+ statusText response))
    else
      data <- Response_json response ;;
      parse (z_array Entry) data.

Definition getProjectEntries (projectId : Z) (params : JsObject) : M JsValue :=
  if (negb (Js.truthy (Js.get params "start_date"))
      || negb (Js.truthy (Js.get params "end_date")))
     && negb (Js.truthy (Js.get params "updated_at"))
  then throw (Error date_range_required)
  else
    let queryParams :=
      fold_left
        (fun queryParams '(key, value) =>
           if negb (Js.is_undefined value)
           then URLSearchParams.append queryParams key (Js.ToString value)
           else queryParams)
        (Js.Object_entries params) URLSearchParams.new in
    url <- Util.createUrl ("projects/" +:+ Js.Number_toString projectId +:+ "/entries.json?"
                           +:+ URLSearchParams.toString queryParams) ;;
    headers <- Util.createHeaders (Some false) ;;
    response <- fetch {| url := url; method := "GET"; headers := headers; body := None |} ;;
    if negb (ok response) then
      throw (Error ("Failed to fetch entries for project "
                    +:+ Js.Number_toString projectId +:+ ": "
                    +:+ Js.Number_toString (status response) +:+ " " +:+ statusText response))
    else
      data <- Response_json response ;;
      parse (z_array Entry) data.

Definition getTaskEntries (taskId : Z) (params : JsObject) : M JsValue :=
  if (negb (Js.truthy (Js.get params "start_date"))
      || negb (Js.truthy (Js.get params "end_date")))
     && negb (Js.truthy (Js.get params "updated_at"))
  then throw (Error date_range_required)
  else
    let queryParams :=
      fold_left
        (fun queryParams '(key, value) =>
           if negb (Js.is_undefined value)
           then URLSearchParams.append queryParams key (Js.ToString value)
           else queryParams)
        (Js.Object_entries params) URLSearchParams.new in
    url <- Util.createUrl ("tasks/" +:+ Js.Number_toString taskId +:+ "/entries.json?"
                           +:+ URLSearchParams.toString queryParams) ;;
    headers <- Util.createHeaders (Some false) ;;
    response <- fetch {| url := url; method := "GET"; headers := headers; body := None |} ;;
    if negb (ok response) then
      throw (Error ("Failed to fetch entries for task " +:+ Js.Number_toString taskId +:+ ": "
                    +:+ Js.Number_toString (status response) +:+ " " +:+ statusText response))
    else
      data <- Response_json response ;;
      parse (z_array Entry) data.

Definition getEntry (id : string) : M JsValue :=
  url <- Util.createUrl ("entries/" +:+ id +:+ ".json") ;;
  headers <- Util.createHeaders (Some false) ;;
  response <- fetch {| url := url; method := "GET"; headers := headers; body := None |} ;;
  if negb (ok response) then
    throw (Error ("Failed to fetch entry with ID " +:+ id +:+ ": "
                  +:+ Js.Number_toString (status response) +:+ " " +:+ statusText response))
  else
    data <- Response_json response ;;
    parse EntryWithTask data.

Definition createEntry (params : JsObject) : M JsValue :=
  url <- Util.createUrl "entries.json" ;;
  headers <- Util.createHeaders None ;;
  response <- fetch {| url := url; method := "POST"; headers := headers;
                       body := JSON.stringify (JObj params) |} ;;
  if negb (ok response) then
    throw (Error ("Failed to create entry: "
                  +:+ Js.Number_toString (status response) +:+ " " +:+ statusText response))
  else
    data <- Response_json response ;;
    parse Entry data.

Definition updateEntry (id : string) (params : JsObject) : M JsValue :=
  url <- Util.createUrl ("entries/" +:+ id +:+ ".json") ;;
  headers <- Util.createHeaders None ;;
  response <- fetch {| url := url; method := "PUT"; headers := headers;
                       body := JSON.stringify (JObj params) |} ;;
  if negb (ok response) then
    throw (Error ("Failed to update entry with ID " +:+ id +:+ ": "
                  +:+ Js.Number_toString (status response) +:+ " " +:+ statusText response))
  else
    data <- Response_json response ;;
    parse Entry data.

Definition deleteEntry (id : string) : M JsValue :=
  url <- Util.createUrl ("entries/" +:+ id +:+ ".json") ;;
  headers <- Util.createHeaders (Some false) ;;
  response <- fetch {| url := url; method := "DELETE"; headers := headers; body := None |} ;;
  if negb (ok response) then
    throw (Error ("Failed to delete entry with ID " +:+ id +:+ ": "
                  +:+ Js.Number_toString (status response) +:+ " " +:+ statusText response))
  else
    ret JUndefined.

End WithPlatform.
End Entries.

(* ===================================================================== *)
(** * src/client.ts                                                       *)
(* ===================================================================== *)

Module TickClient.

(** [private config: TickConfig]: a reference to the facade's own object. *)
Record t : Type := { config : loc }.

(** The condition of each [if] of [validateConfig]: the value is falsy, or
    its [typeof] is not [string], or its [trim()] is the empty string.  The
    disjunction short-circuits, so [trim] is only ever called on a string. *)
Definition missing (v : JsValue) : bool :=
  negb (Js.truthy v)
  || negb (String.eqb (Js.typeof v) "string")
  || match v with
     | JStr x => JsString.isEmpty (JsString.trim x)
     | _ => false
     end.

Definition validateConfig (config : loc) : M unit :=
  let errors : list string := [] in
  subscriptionId <- prop config "subscriptionId" ;;
  let errors :=
    if missing subscriptionId
    then (errors ++ ["subscriptionId is required and must be a non-empty string"])%list
    else errors in
  apiToken <- prop config "apiToken" ;;
  let errors :=
    if missing apiToken
    then (errors ++ ["apiToken is required and must be a non-empty string"])%list
    else errors in
  userAgent <- prop config "userAgent" ;;
  let errors :=
    if missing userAgent
    then (errors ++ ["userAgent is required and must be a non-empty string"])%list
    else errors in
  if (0 <? List.length errors)%nat
  then throw (Error ("Invalid TickClient configuration: " +:+ JsString.join ", " errors))
  else ret tt.

(** [new TickClient(config)]. *)
Definition constructor (config : loc) : M t :=
  validateConfig config ;;;
  subscriptionId <- prop config "subscriptionId" ;;
  apiToken <- prop config "apiToken" ;;
  userAgent <- prop config "userAgent" ;;
  this_config <- alloc [ ("subscriptionId", subscriptionId);
                         ("apiToken", apiToken);
                         ("userAgent", userAgent) ] ;;
  ret {| config := this_config |}.

Definition withConfig {T} (this : t) (fn : M T) : M T :=
  originalConfig <- Util.getGlobalConfig ;;
  Util.setGlobalConfig (Some (config this)) ;;;
  try_finally fn (Util.setGlobalConfig originalConfig).

Section WithPlatform.
Context `{Platform}.

Definition getUsers (this : t) : M JsValue :=
  withConfig this (Users.getUsers).

Definition getDeletedUsers (this : t) : M JsValue :=
  withConfig this (Users.getDeletedUsers).

Definition createUser (this : t) (params : JsObject) : M JsValue :=
  withConfig this (Users.createUser params).

Definition getClients (this : t) : M JsValue :=
  withConfig this (Clients.getClients).

Definition getAllClients (this : t) : M JsValue :=
  withConfig this (Clients.getAllClients).

Definition getClient (this : t) (id : Z) : M JsValue :=
  withConfig this (Clients.getClient id).

Definition createClient (this : t) (params : JsObject) : M JsValue :=
  withConfig this (Clients.createClient params).

Definition updateClient (this : t) (id : Z) (params : JsObject) : M JsValue :=
  withConfig this (Clients.updateClient id params).

Definition deleteClient (this : t) (id : Z) : M JsValue :=
  withConfig this (Clients.deleteClient id).

Definition getProjects (this : t) (params : option JsObject) : M JsValue :=
  withConfig this (Projects.getProjects params).

Definition getClosedProjects (this : t) (params : option JsObject) : M JsValue :=
  withConfig this (Projects.getClosedProjects params).

Definition getProject (this : t) (id : Z) : M JsValue :=
  withConfig this (Projects.getProject id).

Definition createProject (this : t) (params : JsObject) : M JsValue :=
  withConfig this (Projects.createProject params).

Definition updateProject (this : t) (id : Z) (params : JsObject) : M JsValue :=
  withConfig this (Projects.updateProject id params).

Definition deleteProject (this : t) (id : Z) : M JsValue :=
  withConfig this (Projects.deleteProject id).

Definition getTasks (this : t) : M JsValue :=
  withConfig this (Tasks.getTasks).

Definition getProjectTasks (this : t) (projectId : Z) : M JsValue :=
  withConfig this (Tasks.getProjectTasks projectId).

Definition getClosedTasks (this : t) : M JsValue :=
  withConfig this (Tasks.getClosedTasks).

Definition getProjectClosedTasks (this : t) (projectId : Z) : M JsValue :=
  withConfig this (Tasks.getProjectClosedTasks projectId).

Definition getTask (this : t) (id : string) : M JsValue :=
  withConfig this (Tasks.getTask id).

Definition createTask (this : t) (params : JsObject) : M JsValue :=
  withConfig this (Tasks.createTask params).

Definition updateTask (this : t) (id : string) (params : JsObject) : M JsValue :=
  withConfig this (Tasks.updateTask id params).

Definition deleteTask (this : t) (id : string) : M JsValue :=
  withConfig this (Tasks.deleteTask id).

Definition getEntries (this : t) (params : JsObject) : M JsValue :=
  withConfig this (Entries.getEntries params).

Definition getUserEntries (this : t) (userId : Z) (params : JsObject) : M JsValue :=
  withConfig this (Entries.getUserEntries userId params).

Definition getProjectEntries (this : t) (projectId : Z) (params : JsObject) : M JsValue :=
  withConfig this (Entries.getProjectEntries projectId params).

Definition getTaskEntries (this : t) (taskId : Z) (params : JsObject) : M JsValue :=
  withConfig this (Entries.getTaskEntries taskId params).

Definition getEntry (this : t) (id : string) : M JsValue :=
  withConfig this (Entries.getEntry id).

Definition createEntry (this : t) (params : JsObject) : M JsValue :=
  withConfig this (Entries.createEntry params).

Definition updateEntry (this : t) (id : string) (params : JsObject) : M JsValue :=
  withConfig this (Entries.updateEntry id params).

Definition deleteEntry (this : t) (id : string) : M JsValue :=
  withConfig this (Entries.deleteEntry id).

End WithPlatform.
End TickClient.

(* ===================================================================== *)
(** * The endpoints, enumerated                                           *)
(* ===================================================================== *)

(** One constructor per method of the facade, with its arguments; [api]
    is the endpoint function the method wraps and [call] the method. *)
Inductive Endpoint : Type :=
| GetUsers
| GetDeletedUsers
| CreateUser (params : JsObject)
| GetClients
| GetAllClients
| GetClient (id : Z)
| CreateClient (params : JsObject)
| UpdateClient (id : Z) (params : JsObject)
| DeleteClient (id : Z)
| GetProjects (params : option JsObject)
| GetClosedProjects (params : option JsObject)
| GetProject (id : Z)
| CreateProject (params : JsObject)
| UpdateProject (id : Z) (params : JsObject)
| DeleteProject (id : Z)
| GetTasks
| GetProjectTasks (projectId : Z)
| GetClosedTasks
| GetProjectClosedTasks (projectId : Z)
| GetTask (id : string)
| CreateTask (params : JsObject)
| UpdateTask (id : string) (params : JsObject)
| DeleteTask (id : string)
| GetEntries (params : JsObject)
| GetUserEntries (userId : Z) (params : JsObject)
| GetProjectEntries (projectId : Z) (params : JsObject)
| GetTaskEntries (taskId : Z) (params : JsObject)
| GetEntry (id : string)
| CreateEntry (params : JsObject)
| UpdateEntry (id : string) (params : JsObject)
| DeleteEntry (id : string).

Section Dispatch.
Context `{Platform}.

Definition api (e : Endpoint) : M JsValue :=
  match e with
  | GetUsers => Users.getUsers
  | GetDeletedUsers => Users.getDeletedUsers
  | CreateUser params => Users.createUser params
  | GetClients => Clients.getClients
  | GetAllClients => Clients.getAllClients
  | GetClient id => Clients.getClient id
  | CreateClient params => Clients.createClient params
  | UpdateClient id params => Clients.updateClient id params
  | DeleteClient id => Clients.deleteClient id
  | GetProjects params => Projects.getProjects params
  | GetClosedProjects params => Projects.getClosedProjects params
  | GetProject id => Projects.getProject id
  | CreateProject params => Projects.createProject params
  | UpdateProject id params => Projects.updateProject id params
  | DeleteProject id => Projects.deleteProject id
  | GetTasks => Tasks.getTasks
  | GetProjectTasks projectId => Tasks.getProjectTasks projectId
  | GetClosedTasks => Tasks.getClosedTasks
  | GetProjectClosedTasks projectId => Tasks.getProjectClosedTasks projectId
  | GetTask id => Tasks.getTask id
  | CreateTask params => Tasks.createTask params
  | UpdateTask id params => Tasks.updateTask id params
  | DeleteTask id => Tasks.deleteTask id
  | GetEntries params => Entries.getEntries params
  | GetUserEntries userId params => Entries.getUserEntries userId params
  | GetProjectEntries projectId params => Entries.getProjectEntries projectId params
  | GetTaskEntries taskId params => Entries.getTaskEntries taskId params
  | GetEntry id => Entries.getEntry id
  | CreateEntry params => Entries.createEntry params
  | UpdateEntry id params => Entries.updateEntry id params
  | DeleteEntry id => Entries.deleteEntry id
  end.

Definition call (this : TickClient.t) (e : Endpoint) : M JsValue :=
  match e with
  | GetUsers => TickClient.getUsers this
  | GetDeletedUsers => TickClient.getDeletedUsers this
  | CreateUser params => TickClient.createUser this params
  | GetClients => TickClient.getClients this
  | GetAllClients => TickClient.getAllClients this
  | GetClient id => TickClient.getClient this id
  | CreateClient params => TickClient.createClient this params
  | UpdateClient id params => TickClient.updateClient this id params
  | DeleteClient id => TickClient.deleteClient this id
  | GetProjects params => TickClient.getProjects this params
  | GetClosedProjects params => TickClient.getClosedProjects this params
  | GetProject id => TickClient.getProject this id
  | CreateProject params => TickClient.createProject this params
  | UpdateProject id params => TickClient.updateProject this id params
  | DeleteProject id => TickClient.deleteProject this id
  | GetTasks => TickClient.getTasks this
  | GetProjectTasks projectId => TickClient.getProjectTasks this projectId
  | GetClosedTasks => TickClient.getClosedTasks this
  | GetProjectClosedTasks projectId => TickClient.getProjectClosedTasks this projectId
  | GetTask id => TickClient.getTask this id
  | CreateTask params => TickClient.createTask this params
  | UpdateTask id params => TickClient.updateTask this id params
  | DeleteTask id => TickClient.deleteTask this id
  | GetEntries params => TickClient.getEntries this params
  | GetUserEntries userId params => TickClient.getUserEntries this userId params
  | GetProjectEntries projectId params => TickClient.getProjectEntries this projectId params
  | GetTaskEntries taskId params => TickClient.getTaskEntries this taskId params
  | GetEntry id => TickClient.getEntry this id
  | CreateEntry params => TickClient.createEntry this params
  | UpdateEntry id params => TickClient.updateEntry this id params
  | DeleteEntry id => TickClient.deleteEntry this id
  end.

End Dispatch.

(* ===================================================================== *)
(** * Reading the store                                                   *)
(* ===================================================================== *)

Definition with_global (s : State) (g : option loc) : State :=
  {| heap := heap s; globalConfig := g; requests := requests s |}.

Definition with_request (s : State) (req : Request) : State :=
  {| heap := heap s; globalConfig := globalConfig s;
     requests := (requests s ++ [req])%list |}.

(** [active s cfg]: a configuration is active and [cfg] is its content. *)
Definition active (s : State) (cfg : JsObject) : Prop :=
  exists l, globalConfig s = Some l /\ heap s !! l = Some cfg.

(** [owns s this cfg]: the facade's private object is in the store. *)
Definition owns (s : State) (this : TickClient.t) (cfg : JsObject) : Prop :=
  heap s !! TickClient.config this = Some cfg.

(** The URL and the headers the request helpers compute from [cfg]. *)
Definition url_of (cfg : JsObject) (path : string) : string :=
  "https://www.tickspot.com/" +:+ Js.ToString (Js.get cfg "subscriptionId")
  +:+ "/api/v2/" +:+ path.

Definition headers_of (cfg : JsObject) (includeContentType : bool) : JsObject :=
  ([ ("Authorization", JStr ("Token token=" +:+ Js.ToString (Js.get cfg "apiToken")));
     ("User-Agent", Js.get cfg "userAgent") ]
   ++ if includeContentType
      then [("Content-Type", JStr "application/json; charset=utf-8")]
      else [])%list.

(* ===================================================================== *)
(** * The wire contract, as tables                                        *)
(* ===================================================================== *)

(** What each endpoint function does is summarised by a few tables (verb,
    relative path, body, failure messages, response schema).  [api_run]
    below proves that the thirty-one functions are instances of one
    pattern driven by these tables; the claims are then read off. *)

Definition date_range_ok (params : JsObject) : bool :=
  (Js.truthy (Js.get params "start_date") && Js.truthy (Js.get params "end_date"))
  || Js.truthy (Js.get params "updated_at").

Definition entries_filter (e : Endpoint) : option JsObject :=
  match e with
  | GetEntries params | GetUserEntries _ params
  | GetProjectEntries _ params | GetTaskEntries _ params => Some params
  | _ => None
  end.

(** The endpoint reaches the transport: its input passes the only check
    the library makes before a request. *)
Definition admissible (e : Endpoint) : bool :=
  match entries_filter e with
  | Some params => date_range_ok params
  | None => true
  end.

Definition verb (e : Endpoint) : string :=
  match e with
  | CreateUser _ | CreateClient _ | CreateProject _ | CreateTask _ | CreateEntry _ => "POST"
  | UpdateClient _ _ | UpdateProject _ _ | UpdateTask _ _ | UpdateEntry _ _ => "PUT"
  | DeleteClient _ | DeleteProject _ | DeleteTask _ | DeleteEntry _ => "DELETE"
  | _ => "GET"
  end.

Definition defined_fields (params : JsObject) : JsObject :=
  List.filter (fun '(_, value) => negb (Js.is_undefined value)) params.

Definition query_of (params : JsObject) : string :=
  URLSearchParams.toString
    (List.map (fun '(key, value) => (key, Js.ToString value)) (defined_fields params)).

Definition page_query (params : option JsObject) : string :=
  let page := Js.get (default [] params) "page" in
  if Js.truthy page
  then "?page=" +:+ URLSearchParams.encode (Js.ToString page)
  else EmptyString.

Definition path (e : Endpoint) : string :=
  match e with
  | GetUsers => "users.json"
  | GetDeletedUsers => "users/deleted.json"
  | CreateUser _ => "users.json"
  | GetClients => "clients.json"
  | GetAllClients => "clients/all.json"
  | GetClient id | UpdateClient id _ | DeleteClient id =>
      "clients/" +:+ Js.Number_toString id +:+ ".json"
  | CreateClient _ => "clients.json"
  | GetProjects params => "projects.json" +:+ page_query params
  | GetClosedProjects params => "projects/closed.json" +:+ page_query params
  | GetProject id | UpdateProject id _ | DeleteProject id =>
      "projects/" +:+ Js.Number_toString id +:+ ".json"
  | CreateProject _ => "projects.json"
  | GetTasks => "tasks.json"
  | GetProjectTasks projectId =>
      "projects/" +:+ Js.Number_toString projectId +:+ "/tasks.json"
  | GetClosedTasks => "tasks/closed.json"
  | GetProjectClosedTasks projectId =>
      "projects/" +:+ Js.Number_toString projectId +:+ "/tasks/closed.json"
  | GetTask id | UpdateTask id _ | DeleteTask id => "tasks/" +:+ id +:+ ".json"
  | CreateTask _ => "tasks.json"
  | GetEntries params => "entries.json?" +:+ query_of params
  | GetUserEntries userId params =>
      "users/" +:+ Js.Number_toString userId +:+ "/entries.json?" +:+ query_of params
  | GetProjectEntries projectId params =>
      "projects/" +:+ Js.Number_toString projectId +:+ "/entries.json?" +:+ query_of params
  | GetTaskEntries taskId params =>
      "tasks/" +:+ Js.Number_toString taskId +:+ "/entries.json?" +:+ query_of params
  | GetEntry id | UpdateEntry id _ | DeleteEntry id => "entries/" +:+ id +:+ ".json"
  | CreateEntry _ => "entries.json"
  end.

Definition payload (e : Endpoint) : option string :=
  match e with
  | CreateUser params => JSON.stringify (JObj [("user", JObj params)])
  | CreateProject params | UpdateProject _ params =>
      JSON.stringify (JObj [("project", JObj params)])
  | CreateClient params | UpdateClient _ params
  | CreateTask params | UpdateTask _ params
  | CreateEntry params | UpdateEntry _ params => JSON.stringify (JObj params)
  | _ => None
  end.

Definition has_body (e : Endpoint) : bool :=
  String.eqb (verb e) "POST" || String.eqb (verb e) "PUT".

Definition request_of (cfg : JsObject) (e : Endpoint) : Request :=
  {| url := url_of cfg (path e);
     method := verb e;
     headers := headers_of cfg (has_body e);
     body := payload e |}.

(** The start of the generic failure message of each endpoint. *)
Definition label (e : Endpoint) : string :=
  match e with
  | GetUsers => "Failed to fetch users"
  | GetDeletedUsers => "Failed to fetch deleted users"
  | CreateUser _ => "Failed to create user"
  | GetClients => "Failed to fetch clients"
  | GetAllClients => "Failed to fetch all clients"
  | GetClient id => "Failed to fetch client with ID " +:+ Js.Number_toString id
  | CreateClient _ => "Failed to create client"
  | UpdateClient id _ => "Failed to update client with ID " +:+ Js.Number_toString id
  | DeleteClient id => "Failed to delete client with ID " +:+ Js.Number_toString id
  | GetProjects _ => "Failed to fetch projects"
  | GetClosedProjects _ => "Failed to fetch closed projects"
  | GetProject id => "Failed to fetch project with ID " +:+ Js.Number_toString id
  | CreateProject _ => "Failed to create project"
  | UpdateProject id _ => "Failed to update project with ID " +:+ Js.Number_toString id
  | DeleteProject id => "Failed to delete project with ID " +:+ Js.Number_toString id
  | GetTasks => "Failed to fetch tasks"
  | GetProjectTasks projectId =>
      "Failed to fetch tasks for project " +:+ Js.Number_toString projectId
  | GetClosedTasks => "Failed to fetch closed tasks"
  | GetProjectClosedTasks projectId =>
      "Failed to fetch closed tasks for project " +:+ Js.Number_toString projectId
  | GetTask id => "Failed to fetch task with ID " +:+ id
  | CreateTask _ => "Failed to create task"
  | UpdateTask id _ => "Failed to update task with ID " +:+ id
  | DeleteTask id => "Failed to delete task with ID " +:+ id
  | GetEntries _ => "Failed to fetch entries"
  | GetUserEntries userId _ =>
      "Failed to fetch entries for user " +:+ Js.Number_toString userId
  | GetProjectEntries projectId _ =>
      "Failed to fetch entries for project " +:+ Js.Number_toString projectId
  | GetTaskEntries taskId _ =>
      "Failed to fetch entries for task " +:+ Js.Number_toString taskId
  | GetEntry id => "Failed to fetch entry with ID " +:+ id
  | CreateEntry _ => "Failed to create entry"
  | UpdateEntry id _ => "Failed to update entry with ID " +:+ id
  | DeleteEntry id => "Failed to delete entry with ID " +:+ id
  end.

(** The endpoints that single out status 403, with their message. *)
Definition forbidden (e : Endpoint) : option string :=
  match e with
  | GetDeletedUsers => Some "Forbidden: Only administrators can access deleted users"
  | CreateUser _ => Some "Forbidden: Only administrators can create users"
  | CreateClient _ => Some "Forbidden: Only administrators can create clients"
  | UpdateClient _ _ => Some "Forbidden: Only administrators can update clients"
  | DeleteClient _ => Some "Forbidden: Only administrators can delete clients"
  | CreateProject _ => Some "Forbidden: Only administrators can create projects"
  | UpdateProject _ _ => Some "Forbidden: Only administrators can update projects"
  | DeleteProject _ => Some "Forbidden: Only administrators can delete projects"
  | CreateTask _ => Some "Failed to create task: Only administrators can create tasks"
  | UpdateTask _ _ => Some "Failed to update task: Only administrators can update tasks"
  | DeleteTask _ => Some "Failed to delete task: Only administrators can delete tasks"
  | _ => None
  end.

(** The endpoints that single out status 406, with their message. *)
Definition conflict (e : Endpoint) : option string :=
  match e with
  | DeleteClient _ =>
      Some "Client cannot be deleted because it still has associated projects"
  | DeleteTask _ =>
      Some "Failed to delete task: Only tasks without any entries can be deleted"
  | _ => None
  end.

Definition generic_failure (e : Endpoint) (r : Response) : string :=
  label e +:+ ": " +:+ Js.Number_toString (status r) +:+ " " +:+ statusText r.

Definition failure (e : Endpoint) (r : Response) : string :=
  match forbidden e, conflict e with
  | Some m, _ =>
      if status r =? 403 then m
      else match conflict e with
           | Some m' => if status r =? 406 then m' else generic_failure e r
           | None => generic_failure e r
           end
  | None, Some m' => if status r =? 406 then m' else generic_failure e r
  | None, None => generic_failure e r
  end.

(** The schema of the response; [None] for the deletions, which return
    nothing. *)
Definition schema_of (e : Endpoint) : option Schema :=
  match e with
  | GetUsers | GetDeletedUsers => Some (z_array User)
  | CreateUser _ => Some User
  | GetClients | GetAllClients => Some (z_array Client)
  | GetClient _ => Some ClientWithProjects
  | CreateClient _ | UpdateClient _ _ => Some Client
  | GetProjects _ | GetClosedProjects _ => Some (z_array Project)
  | GetProject _ => Some ProjectWithDetails
  | CreateProject _ | UpdateProject _ _ => Some Project
  | GetTasks | GetProjectTasks _ | GetClosedTasks | GetProjectClosedTasks _ =>
      Some (z_array Task)
  | GetTask _ => Some TaskWithDetails
  | CreateTask _ | UpdateTask _ _ => Some Task
  | GetEntries _ | GetUserEntries _ _ | GetProjectEntries _ _ | GetTaskEntries _ _ =>
      Some (z_array Entry)
  | GetEntry _ => Some EntryWithTask
  | CreateEntry _ | UpdateEntry _ _ => Some Entry
  | DeleteClient _ | DeleteProject _ | DeleteTask _ | DeleteEntry _ => None
  end.

Section Contract.
Context `{Platform}.

(** What the endpoint function makes of the transport's answer. *)
Definition respond (e : Endpoint) (r : Response) : Outcome JsValue :=
  if ok r then
    match schema_of e with
    | None => Resolved JUndefined
    | Some schema =>
        match json r with
        | Resolved data => zod_parse schema data
        | Rejected x => Rejected x
        end
    end
  else Rejected (Error (failure e r)).

Definition answer (e : Endpoint) (reply : Outcome Response) : Outcome JsValue :=
  match reply with
  | Resolved r => respond e r
  | Rejected x => Rejected x
  end.

(** The resource of each entries listing, before the query string. *)
Definition entries_resource (e : Endpoint) : string :=
  match e with
  | GetEntries _ => "entries.json"
  | GetUserEntries userId _ => "users/" +:+ Js.Number_toString userId +:+ "/entries.json"
  | GetProjectEntries projectId _ =>
      "projects/" +:+ Js.Number_toString projectId +:+ "/entries.json"
  | GetTaskEntries taskId _ => "tasks/" +:+ Js.Number_toString taskId +:+ "/entries.json"
  | _ => EmptyString
  end.

(** The call [call this e] started in [s] sends exactly one request. *)
Definition sends (this : TickClient.t) (e : Endpoint) (s : State) (req : Request) : Prop :=
  requests (final (call this e) s) = (requests s ++ [req])%list.

End Contract.

(* ===================================================================== *)
(** * The rule for configurations, in the words of the specification      *)
(* ===================================================================== *)

(** A field is acceptable when it is present, of string type and non-empty
    after trimming whitespace. *)
Definition acceptable (v : JsValue) : bool :=
  match v with
  | JStr x => negb (JsString.isEmpty (JsString.trim x))
  | _ => false
  end.

Definition required_fields : list string :=
  [ "subscriptionId"; "apiToken"; "userAgent" ].

(** The violated fields of a configuration, in the order of the rule. *)
Definition violated (obj : JsObject) : list string :=
  List.filter (fun field => negb (acceptable (Js.get obj field))) required_fields.

(** One error whose message enumerates [fields] with the fixed per-field
    message. *)
Definition configuration_error (fields : list string) : JsError :=
  Error ("Invalid TickClient configuration: "
         +:+ JsString.join ", "
               (List.map (fun field =>
                            field +:+ " is required and must be a non-empty string")
                         fields)).

(** The object the facade keeps: the three recognised fields of [obj]. *)
Definition copy_of (obj : JsObject) : JsObject :=
  [ ("subscriptionId", Js.get obj "subscriptionId");
    ("apiToken", Js.get obj "apiToken");
    ("userAgent", Js.get obj "userAgent") ].

(* ===================================================================== *)
(** * Occurrences of a character                                          *)
(* ===================================================================== *)

(** The blanks of ASCII: TAB, LF, VT, FF, CR and the space. *)
Definition blank_byte (a : ascii) : bool :=
  let n := nat_of_ascii a in ((9 <=? n) && (n <=? 13) || (n =? 32))%nat.

Fixpoint all_blank (s : string) : bool :=
  match s with
  | EmptyString => true
  | String a s' => blank_byte a && all_blank s'
  end.

(** The visible characters of ASCII. *)
Definition visible (a : ascii) : bool :=
  let n := nat_of_ascii a in ((33 <=? n) && (n <=? 126))%nat.

Fixpoint last_byte (a : ascii) (rest : string) : ascii :=
  match rest with
  | EmptyString => a
  | String b rest' => last_byte b rest'
  end.

(** A string that starts and ends with a visible ASCII character. *)
Definition bounded (s : string) : bool :=
  match s with
  | EmptyString => false
  | String a rest => visible a && visible (last_byte a rest)
  end.

Fixpoint occurs (c : ascii) (s : string) : bool :=
  match s with
  | EmptyString => false
  | String a s' => Ascii.eqb a c || occurs c s'
  end.

(* ===================================================================== *)
(** * Sample data                                                         *)
(* ===================================================================== *)

(** The configuration of the scenario of the specification. *)
Definition acme : JsObject :=
  [ ("subscriptionId", JStr "acme"); ("apiToken", JStr "tok");
    ("userAgent", JStr "App/1.0") ].

Definition reply (code : Z) (text : string) : Response :=
  {| status := code; statusText := text; json := Resolved JNull |}.

(** A transport that answers every request with [r], and a validator
    that accepts everything. *)
Definition replying (r : Response) : Platform :=
  {| transport := fun _ _ => Resolved r;
     zod_parse := fun _ data => Resolved data |}.

(** A store with one object, no active configuration, nothing sent. *)
Definition store (l : loc) (o : JsObject) : State :=
  {| heap := {[ l := o ]}; globalConfig := None; requests := [] |}.

(** The configurations of tests/test-client.js that must be rejected:
    whitespace only, and values of the wrong types. *)
Definition blank : JsObject :=
  [ ("subscriptionId", JStr "  ");
    ("apiToken", JStr (JsString.bytes [9%nat]));
    ("userAgent", JStr (JsString.bytes [10%nat])) ].

Definition mistyped : JsObject :=
  [ ("subscriptionId", JNum 123); ("apiToken", JBool true); ("userAgent", JNull) ].

(** A valid configuration with a property the library does not know. *)
Definition acme_extra : JsObject :=
  [ ("subscriptionId", JStr "acme"); ("debug", JBool true);
    ("apiToken", JStr "tok"); ("userAgent", JStr "App/1.0") ].

(** A filter for the entries listings, with an undefined field and a
    value that needs encoding. *)
Definition january : JsObject :=
  [ ("start_date", JStr "2024-01-01"); ("end_date", JStr "2024-01 31");
    ("billable", JBool true); ("task_id", JUndefined); ("project_id", JNum 7) ].

Definition acme_client : TickClient.t := {| TickClient.config := 1%positive |}.

Definition acme_store : State := store 1%positive acme.

Definition acme_active : State := with_global acme_store (Some 1%positive).

(** A second configuration and a store holding the private objects of two
    facades. *)
Definition beta : JsObject :=
  [ ("subscriptionId", JStr "beta"); ("apiToken", JStr "key");
    ("userAgent", JStr "Bot/2") ].

Definition beta_client : TickClient.t := {| TickClient.config := 2%positive |}.

Definition two_clients : State :=
  {| heap := <[ 2%positive := beta ]> {[ 1%positive := acme ]};
     globalConfig := None;
     requests := [] |}.

(** A transport on which every request fails with [x]. *)
Definition failing (x : JsError) : Platform :=
  {| transport := fun _ _ => Rejected x;
     zod_parse := fun _ data => Resolved data |}.

(** A validator that refuses everything with [x], behind a transport that
    answers [r]. *)
Definition refusing (r : Response) (x : JsError) : Platform :=
  {| transport := fun _ _ => Resolved r;
     zod_parse := fun _ _ => Rejected x |}.

(* ===================================================================== *)
(** * [withConfig] around a suspension                                    *)
(* ===================================================================== *)

(** [withConfig] is an [async] function with one [await].  What it does
    before the awaited promise is pending, and what it does once that promise
    has settled with [settled], are two pieces that run without interruption;
    other code may run in between.

    [withConfig_enter]: the two statements before the [try]. *)
Definition withConfig_enter (this : TickClient.t) : M (option loc) :=
  originalConfig <- Util.getGlobalConfig ;;
  Util.setGlobalConfig (Some (TickClient.config this)) ;;;
  ret originalConfig.

(** [withConfig_leave]: the [finally] block, then the completion of
    [return await fn()]. *)
Definition withConfig_leave {T} (originalConfig : option loc) (settled : Outcome T) : M T :=
  try_finally (settle settled) (Util.setGlobalConfig originalConfig).

(** The state after someone else wrote to the object at [l]. *)
Definition overwritten (s : State) (l : loc) (o : JsObject) : State :=
  {| heap := <[ l := o ]> (heap s);
     globalConfig := globalConfig s;
     requests := requests s |}.

(* ===================================================================== *)
(** * Running the helpers                                                 *)
(* ===================================================================== *)

Lemma with_global_id s : with_global s (globalConfig s) = s.
Proof. destruct s; reflexivity. Qed.

Lemma active_with_global s this cfg :
  owns s this cfg -> active (with_global s (Some (TickClient.config this))) cfg.
Proof. intros Hown. exists (TickClient.config this). split; [reflexivity | exact Hown]. Qed.

Lemma active_with_request s cfg req : active s cfg -> active (with_request s req) cfg.
Proof. intros (l & Hg & Hl). exists l. split; assumption. Qed.

Lemma bind_ret_l {A B} (a : A) (k : A -> M B) s : bind (ret a) k s = k a s.
Proof. reflexivity. Qed.

Lemma bind_throw {A B} (e : JsError) (k : A -> M B) s :
  bind (throw e) k s = (Rejected e, s).
Proof. reflexivity. Qed.

Lemma bind_run {A B} (m : M A) (k : A -> M B) s a s' :
  m s = (Resolved a, s') -> bind m k s = k a s'.
Proof. intros Hm. unfold bind. rewrite Hm. reflexivity. Qed.

Lemma bind_fail {A B} (m : M A) (k : A -> M B) s e s' :
  m s = (Rejected e, s') -> bind m k s = (Rejected e, s').
Proof. intros Hm. unfold bind. rewrite Hm. reflexivity. Qed.

Lemma createUrl_active s cfg path :
  active s cfg -> Util.createUrl path s = (Resolved (url_of cfg path), s).
Proof.
  intros (l & Hg & Hl).
  unfold Util.createUrl, Util.getGlobalConfig, bind, prop, ret.
  rewrite Hg, Hl. reflexivity.
Qed.

Lemma createHeaders_active s cfg b :
  active s cfg ->
  Util.createHeaders b s = (Resolved (headers_of cfg (default true b)), s).
Proof.
  intros (l & Hg & Hl).
  unfold Util.createHeaders, Util.getGlobalConfig, bind, prop, ret.
  rewrite Hg, Hl, Hl. destruct b as [[|]|]; reflexivity.
Qed.

Lemma createUrl_null s path :
  globalConfig s = None ->
  Util.createUrl path s = (Rejected (Error Util.config_not_set), s).
Proof.
  intros Hg. unfold Util.createUrl, Util.getGlobalConfig, bind. rewrite Hg. reflexivity.
Qed.

Lemma createHeaders_null s b :
  globalConfig s = None ->
  Util.createHeaders b s = (Rejected (Error Util.config_not_set), s).
Proof.
  intros Hg. unfold Util.createHeaders, Util.getGlobalConfig, bind. rewrite Hg. reflexivity.
Qed.


(* ===================================================================== *)
(** * Every endpoint function is an instance of one pattern               *)
(* ===================================================================== *)

Lemma ok_403 r : status r = 403 -> ok r = false.
Proof. intros Hs. unfold ok. rewrite Hs. reflexivity. Qed.

Lemma ok_406 r : status r = 406 -> ok r = false.
Proof. intros Hs. unfold ok. rewrite Hs. reflexivity. Qed.

Lemma fold_query (params : JsObject) (q : URLSearchParams.t) :
  fold_left
    (fun queryParams '(key, value) =>
       if negb (Js.is_undefined value)
       then URLSearchParams.append queryParams key (Js.ToString value)
       else queryParams)
    params q
  = (q ++ List.map (fun '(key, value) => (key, Js.ToString value))
                   (defined_fields params))%list.
Proof.
  revert q. induction params as [|[key value] params IH]; intros q; simpl.
  - symmetry. apply app_nil_r.
  - rewrite IH. destruct (Js.is_undefined value); simpl.
    + reflexivity.
    + unfold URLSearchParams.append. rewrite <- app_assoc. reflexivity.
Qed.

Lemma date_range_check params :
  (negb (Js.truthy (Js.get params "start_date"))
   || negb (Js.truthy (Js.get params "end_date")))
  && negb (Js.truthy (Js.get params "updated_at"))
  = negb (date_range_ok params).
Proof.
  unfold date_range_ok.
  destruct (Js.truthy (Js.get params "start_date")),
           (Js.truthy (Js.get params "end_date")),
           (Js.truthy (Js.get params "updated_at")); reflexivity.
Qed.

Section Pattern.
Context `{Platform}.

Lemma fetch_run {B} (req : Request) (k : Response -> M B) (s : State) :
  bind (fetch req) k s
  = match transport (requests s) req with
    | Resolved r => k r (with_request s req)
    | Rejected x => (Rejected x, with_request s req)
    end.
Proof. reflexivity. Qed.

Lemma api_rejects_filter (e : Endpoint) (s : State) :
  admissible e = false ->
  api e s = (Rejected (Error Entries.date_range_required), s).
Proof.
  intros Hadm.
  destruct e; unfold admissible in Hadm; simpl in Hadm; try discriminate; simpl api;
    unfold Entries.getEntries, Entries.getUserEntries,
           Entries.getProjectEntries, Entries.getTaskEntries;
    rewrite date_range_check, Hadm; reflexivity.
Qed.

Ltac helpers Hact :=
  erewrite (bind_run (Util.createUrl _)) by (apply createUrl_active; exact Hact);
  erewrite (bind_run (Util.createHeaders _)) by (apply createHeaders_active; exact Hact);
  rewrite fetch_run.

Ltac by_status r :=
  unfold answer, respond, failure, generic_failure; simpl;
  repeat match goal with
    | |- context [status r =? ?n] =>
        let E := fresh "E" in
        destruct (Z.eqb_spec (status r) n) as [E|E];
        [ first [ rewrite (ok_403 r E) | rewrite (ok_406 r E) ] | ]
    end;
  try reflexivity;
  destruct (ok r); try reflexivity;
  unfold bind, Response_json, parse, settle; destruct (json r); reflexivity.

Lemma api_run (e : Endpoint) (s : State) (cfg : JsObject) :
  active s cfg ->
  admissible e = true ->
  api e s = (answer e (transport (requests s) (request_of cfg e)),
             with_request s (request_of cfg e)).
Proof.
  intros Hact Hadm.
  destruct e; unfold admissible in Hadm; simpl in Hadm; simpl api.
  all: unfold Users.getUsers, Users.getDeletedUsers, Users.createUser,
    Clients.getClients, Clients.getAllClients, Clients.getClient,
    Clients.createClient, Clients.updateClient, Clients.deleteClient,
    Projects.getProjects, Projects.getClosedProjects, Projects.getProject,
    Projects.createProject, Projects.updateProject, Projects.deleteProject,
    Tasks.getTasks, Tasks.getProjectTasks, Tasks.getClosedTasks,
    Tasks.getProjectClosedTasks, Tasks.getTask, Tasks.createTask,
    Tasks.updateTask, Tasks.deleteTask,
    Entries.getEntries, Entries.getUserEntries, Entries.getProjectEntries,
    Entries.getTaskEntries, Entries.getEntry, Entries.createEntry,
    Entries.updateEntry, Entries.deleteEntry.
  all: try (rewrite date_range_check, Hadm; simpl (negb true); cbv iota;
            rewrite fold_query; unfold URLSearchParams.new, Js.Object_entries;
            rewrite app_nil_l).
  all: cbv zeta.
  all: try (destruct (Js.truthy (Js.get (default [] params) "page")) eqn:Hpage;
            unfold request_of, path, page_query; rewrite Hpage).
  all: helpers Hact.
  all: match goal with
       | |- match transport _ ?req with _ => _ end
            = (answer _ (transport _ ?req'), _) =>
           change req' with req; destruct (transport (requests s) req) as [r|x]
       end; [ | reflexivity ].
  all: by_status r.
Qed.

End Pattern.

(* ===================================================================== *)
(** * The facade                                                          *)
(* ===================================================================== *)

Lemma withConfig_run {T} (this : TickClient.t) (fn : M T) (s : State) :
  TickClient.withConfig this fn s
  = (outcome fn (with_global s (Some (TickClient.config this))),
     with_global (final fn (with_global s (Some (TickClient.config this))))
                 (globalConfig s)).
Proof.
  unfold TickClient.withConfig, Util.getGlobalConfig, Util.setGlobalConfig,
    bind, try_finally, outcome, final, with_global; simpl.
  destruct (fn _) as [r s1]. reflexivity.
Qed.

Section Facade.
Context `{Platform}.

Lemma call_withConfig (this : TickClient.t) (e : Endpoint) :
  call this e = TickClient.withConfig this (api e).
Proof. destruct e; reflexivity. Qed.

Lemma call_run (this : TickClient.t) (e : Endpoint) (s : State) (cfg : JsObject) :
  owns s this cfg ->
  admissible e = true ->
  call this e s = (answer e (transport (requests s) (request_of cfg e)),
                   with_request s (request_of cfg e)).
Proof.
  intros Hown Hadm.
  rewrite call_withConfig, withConfig_run. unfold outcome, final.
  rewrite (api_run e _ cfg (active_with_global s this cfg Hown) Hadm).
  destruct s; reflexivity.
Qed.

Lemma call_rejects_filter (this : TickClient.t) (e : Endpoint) (s : State) :
  admissible e = false ->
  call this e s = (Rejected (Error Entries.date_range_required), s).
Proof.
  intros Hadm.
  rewrite call_withConfig, withConfig_run. unfold outcome, final.
  rewrite (api_rejects_filter e _ Hadm).
  destruct s; reflexivity.
Qed.

End Facade.

(* ===================================================================== *)
(** * The claims                                                          *)
(* ===================================================================== *)

(** C1.  Every method of the facade is [withConfig] around its endpoint
    function.  The wrapper runs the wrapped operation [fn] (any operation,
    settling either way) in the state where the active configuration is the
    instance's own one; when [fn] has settled the active configuration is
    again the one captured at entry, [null] included; the outcome of [fn],
    a value or a failure, is the outcome of the call, and the rest of the
    state is as [fn] left it. *)
Theorem C1_withConfig_scopes_and_restores `{Platform} (this : TickClient.t) :
  (forall e : Endpoint, call this e = TickClient.withConfig this (api e)) /\
  (forall (T : Type) (fn : M T) (s : State),
      let inside := with_global s (Some (TickClient.config this)) in
      outcome (TickClient.withConfig this fn) s = outcome fn inside /\
      globalConfig (final (TickClient.withConfig this fn) s) = globalConfig s /\
      heap (final (TickClient.withConfig this fn) s) = heap (final fn inside) /\
      requests (final (TickClient.withConfig this fn) s) = requests (final fn inside)).
Proof.
  split.
  - apply call_withConfig.
  - intros T fn s inside.
    assert (Hrun := withConfig_run this fn s). fold inside in Hrun.
    assert (Hout : outcome (TickClient.withConfig this fn) s = outcome fn inside)
      by (unfold outcome at 1; rewrite Hrun; reflexivity).
    assert (Hfin : final (TickClient.withConfig this fn) s
                   = with_global (final fn inside) (globalConfig s))
      by (unfold final at 1; rewrite Hrun; reflexivity).
    rewrite Hout, Hfin. repeat split.
Qed.

(** C5.  With an active configuration whose subscription id is the string
    [subscriptionId], [createUrl path] returns exactly the fixed origin, the
    subscription id, the fixed [/api/v2/] segment and [path], concatenated;
    with no active configuration it throws the configuration error and
    returns no URL.  Neither case changes the state. *)
Theorem C5_createUrl (s : State) (path : string) :
  (forall (l : loc) (cfg : JsObject) (subscriptionId : string),
      globalConfig s = Some l ->
      heap s !! l = Some cfg ->
      Js.get cfg "subscriptionId" = JStr subscriptionId ->
      Util.createUrl path s
      = (Resolved ("https://www.tickspot.com/" +:+ subscriptionId +:+ "/api/v2/" +:+ path),
         s)) /\
  (globalConfig s = None ->
   Util.createUrl path s = (Rejected (Error Util.config_not_set), s)).
Proof.
  split.
  - intros l cfg subscriptionId Hg Hl Hsub.
    rewrite (createUrl_active s cfg path) by (exists l; split; assumption).
    unfold url_of. rewrite Hsub. reflexivity.
  - apply createUrl_null.
Qed.

Lemma C5_createUrl_witness :
  Util.createUrl "clients.json" acme_active
  = (Resolved "https://www.tickspot.com/acme/api/v2/clients.json", acme_active) /\
  Util.createUrl "clients.json" acme_store
  = (Rejected (Error "Global configuration is not set. Please call setGlobalConfig() first."),
     acme_store).
Proof.
  split.
  - apply (proj1 (C5_createUrl acme_active "clients.json") 1%positive acme "acme");
      reflexivity.
  - apply (proj2 (C5_createUrl acme_store "clients.json")); reflexivity.
Defined.

(** C6.  With an active configuration whose token is the string [apiToken],
    [createHeaders] returns an [Authorization] header of the form
    [Token token=<apiToken>], a [User-Agent] header that is the
    configuration's [userAgent], and the JSON [Content-Type] header exactly
    when its argument is true, which is the default; with no active
    configuration it throws the configuration error.  Every request a facade
    method sends is a GET, POST, PUT or DELETE; the GET and DELETE ones carry
    the two headers alone and the POST and PUT ones the [Content-Type] too. *)
Theorem C6_createHeaders `{Platform} :
  (forall (s : State) (l : loc) (cfg : JsObject) (apiToken : string)
          (includeContentType : option bool),
      globalConfig s = Some l ->
      heap s !! l = Some cfg ->
      Js.get cfg "apiToken" = JStr apiToken ->
      Util.createHeaders includeContentType s
      = (Resolved
           ([ ("Authorization", JStr ("Token token=" +:+ apiToken));
              ("User-Agent", Js.get cfg "userAgent") ]
            ++ if default true includeContentType
               then [("Content-Type", JStr "application/json; charset=utf-8")]
               else [])%list,
         s)) /\
  (forall (s : State) (includeContentType : option bool),
      globalConfig s = None ->
      Util.createHeaders includeContentType s
      = (Rejected (Error Util.config_not_set), s)) /\
  (forall (this : TickClient.t) (e : Endpoint) (s : State) (cfg : JsObject)
          (apiToken : string),
      owns s this cfg ->
      Js.get cfg "apiToken" = JStr apiToken ->
      admissible e = true ->
      exists req : Request,
        requests (final (call this e) s) = (requests s ++ [req])%list /\
        (method req = "GET" \/ method req = "DELETE"
         \/ method req = "POST" \/ method req = "PUT") /\
        (method req = "GET" \/ method req = "DELETE" ->
         headers req
         = [ ("Authorization", JStr ("Token token=" +:+ apiToken));
             ("User-Agent", Js.get cfg "userAgent") ]) /\
        (method req = "POST" \/ method req = "PUT" ->
         headers req
         = [ ("Authorization", JStr ("Token token=" +:+ apiToken));
             ("User-Agent", Js.get cfg "userAgent");
             ("Content-Type", JStr "application/json; charset=utf-8") ])).
Proof.
  split; [ | split ].
  - intros s l cfg apiToken b Hg Hl Htok.
    rewrite (createHeaders_active s cfg b) by (exists l; split; assumption).
    unfold headers_of. rewrite Htok. reflexivity.
  - intros s b. apply createHeaders_null.
  - intros this e s cfg apiToken Hown Htok Hadm.
    exists (request_of cfg e). unfold final.
    rewrite (call_run this e s cfg Hown Hadm).
    split; [ reflexivity | ].
    unfold request_of, headers_of; simpl method; simpl headers. rewrite Htok.
    destruct e; simpl;
      (split; [ tauto | split; intros [Hm|Hm]; try discriminate Hm; reflexivity ]).
Qed.

Lemma C6_createHeaders_witness :
  Util.createHeaders None acme_active
  = (Resolved [ ("Authorization", JStr "Token token=tok");
                ("User-Agent", JStr "App/1.0");
                ("Content-Type", JStr "application/json; charset=utf-8") ],
     acme_active) /\
  Util.createHeaders (Some false) acme_active
  = (Resolved [ ("Authorization", JStr "Token token=tok");
                ("User-Agent", JStr "App/1.0") ],
     acme_active) /\
  Util.createHeaders None acme_store
  = (Rejected (Error Util.config_not_set), acme_store) /\
  exists req : Request,
    requests (final (@call (replying (reply 200 "OK")) acme_client GetClients) acme_store)
    = ([] ++ [req])%list /\
    (method req = "GET" \/ method req = "DELETE"
     \/ method req = "POST" \/ method req = "PUT") /\
    (method req = "GET" \/ method req = "DELETE" ->
     headers req = [ ("Authorization", JStr "Token token=tok");
                     ("User-Agent", JStr "App/1.0") ]) /\
    (method req = "POST" \/ method req = "PUT" ->
     headers req = [ ("Authorization", JStr "Token token=tok");
                     ("User-Agent", JStr "App/1.0");
                     ("Content-Type", JStr "application/json; charset=utf-8") ]).
Proof.
  pose proof (@C6_createHeaders (replying (reply 200 "OK"))) as (Hactive & Hnull & Hsent).
  split; [ | split; [ | split ] ].
  - apply (Hactive acme_active 1%positive acme "tok" None); reflexivity.
  - apply (Hactive acme_active 1%positive acme "tok" (Some false)); reflexivity.
  - apply (Hnull acme_store None); reflexivity.
  - apply (Hsent acme_client GetClients acme_store acme "tok"); reflexivity.
Defined.

(* ===================================================================== *)
(** * Construction                                                        *)
(* ===================================================================== *)

Lemma missing_acceptable (v : JsValue) : TickClient.missing v = negb (acceptable v).
Proof.
  unfold TickClient.missing, acceptable.
  destruct v as [ | | b | n | x | props | items ]; simpl; try reflexivity.
  - destruct b; reflexivity.
  - destruct (n =? 0); reflexivity.
  - destruct x as [ | a x ]; simpl.
    + reflexivity.
    + symmetry. apply negb_involutive.
Qed.

Lemma prop_run {B} (l : loc) (k : string) (cont : JsValue -> M B) (s : State) (obj : JsObject) :
  heap s !! l = Some obj -> bind (prop l k) cont s = cont (Js.get obj k) s.
Proof. intros Hl. unfold bind, prop. rewrite Hl. reflexivity. Qed.

Lemma validateConfig_run (s : State) (input : loc) (obj : JsObject) :
  heap s !! input = Some obj ->
  TickClient.validateConfig input s
  = (match violated obj with
     | [] => Resolved tt
     | _ :: _ => Rejected (configuration_error (violated obj))
     end, s).
Proof.
  intros Hl. unfold TickClient.validateConfig.
  do 3 (rewrite (prop_run _ _ _ _ _ Hl); cbv zeta).
  rewrite !missing_acceptable. unfold violated, required_fields; simpl List.filter.
  destruct (acceptable (Js.get obj "subscriptionId")),
           (acceptable (Js.get obj "apiToken")),
           (acceptable (Js.get obj "userAgent")); reflexivity.
Qed.

Lemma constructor_run (s : State) (input : loc) (obj : JsObject) :
  heap s !! input = Some obj ->
  TickClient.constructor input s
  = match violated obj with
    | [] =>
        (Resolved {| TickClient.config := fresh (dom (heap s)) |},
         {| heap := <[fresh (dom (heap s)) := copy_of obj]> (heap s);
            globalConfig := globalConfig s;
            requests := requests s |})
    | _ :: _ => (Rejected (configuration_error (violated obj)), s)
    end.
Proof.
  intros Hl. unfold TickClient.constructor.
  unfold bind at 1. rewrite (validateConfig_run s input obj Hl).
  destruct (violated obj); [ | reflexivity ].
  do 3 rewrite (prop_run _ _ _ _ _ Hl). reflexivity.
Qed.

Lemma fresh_unallocated (h : gmap loc JsObject) : h !! fresh (dom h) = None.
Proof. apply not_elem_of_dom. apply is_fresh. Qed.

(** C4.  The constructor accepts exactly the configurations whose three
    fields are each present, of string type and non-empty after trimming.
    When some field violates this, construction fails with one error whose
    message enumerates every violated field with the fixed per-field
    message, and nothing is stored.  Constructing a second time with the
    same configuration fails exactly when the first construction failed,
    with the same error. *)
Theorem C4_constructor_validation (s : State) (input : loc) (obj : JsObject) :
  heap s !! input = Some obj ->
  (violated obj = [] ->
   exists this : TickClient.t, outcome (TickClient.constructor input) s = Resolved this) /\
  (violated obj <> [] ->
   TickClient.constructor input s = (Rejected (configuration_error (violated obj)), s)) /\
  (forall err : JsError,
      outcome (TickClient.constructor input) s = Rejected err <->
      outcome (TickClient.constructor input)
              (final (TickClient.constructor input) s) = Rejected err).
Proof.
  intros Hl.
  assert (Hrun := constructor_run s input obj Hl).
  split; [ | split ].
  - intros Hv. unfold outcome. rewrite Hrun, Hv. eexists. reflexivity.
  - intros Hv. rewrite Hrun. destruct (violated obj); [ contradiction | reflexivity ].
  - intros err. unfold outcome, final. rewrite Hrun.
    destruct (violated obj) as [ | field fields ] eqn:Hv; simpl.
    + rewrite (constructor_run _ input obj).
      * rewrite Hv. simpl. split; intros Habs; discriminate Habs.
      * simpl. rewrite lookup_insert_ne; [ exact Hl | ].
        intros Heq. rewrite <- Heq, fresh_unallocated in Hl. discriminate.
    + rewrite Hrun. simpl. reflexivity.
Qed.

Lemma C4_constructor_validation_witness :
  (exists this : TickClient.t,
      outcome (TickClient.constructor 1%positive) acme_store = Resolved this) /\
  TickClient.constructor 1%positive (store 1%positive mistyped)
  = (Rejected
       (Error ("Invalid TickClient configuration: "
               +:+ "subscriptionId is required and must be a non-empty string, "
               +:+ "apiToken is required and must be a non-empty string, "
               +:+ "userAgent is required and must be a non-empty string")),
     store 1%positive mistyped) /\
  TickClient.constructor 1%positive (store 1%positive blank)
  = (Rejected (configuration_error [ "subscriptionId"; "apiToken"; "userAgent" ]),
     store 1%positive blank).
Proof.
  split; [ | split ].
  - apply (proj1 (C4_constructor_validation acme_store 1%positive acme eq_refl)).
    reflexivity.
  - apply (proj1 (proj2 (C4_constructor_validation (store 1%positive mistyped)
                           1%positive mistyped eq_refl))).
    discriminate.
  - apply (proj1 (proj2 (C4_constructor_validation (store 1%positive blank)
                           1%positive blank eq_refl))).
    discriminate.
Defined.

(** C9.  For every accepted configuration the constructor returns a facade
    whose [config] is a new object, distinct from the caller's: it did not
    exist before, it holds exactly the three recognised fields with the
    values read from the input (whatever else the input has is not
    copied), the caller's object and every other object are unchanged, and
    a later write to the caller's object does not reach the copy. *)
Theorem C9_defensive_copy (s : State) (input : loc) (obj : JsObject) :
  heap s !! input = Some obj ->
  violated obj = [] ->
  exists (this : TickClient.t) (s' : State),
    TickClient.constructor input s = (Resolved this, s') /\
    TickClient.config this <> input /\
    heap s !! TickClient.config this = None /\
    heap s' !! TickClient.config this
    = Some [ ("subscriptionId", Js.get obj "subscriptionId");
             ("apiToken", Js.get obj "apiToken");
             ("userAgent", Js.get obj "userAgent") ] /\
    (forall l : loc, l <> TickClient.config this -> heap s' !! l = heap s !! l) /\
    globalConfig s' = globalConfig s /\
    requests s' = requests s /\
    (forall obj' : JsObject,
        <[input := obj']> (heap s') !! TickClient.config this
        = heap s' !! TickClient.config this).
Proof.
  intros Hl Hv.
  assert (Hnew : fresh (dom (heap s)) <> input).
  { intros Heq. rewrite <- Heq, fresh_unallocated in Hl. discriminate. }
  eexists _, _. split.
  - rewrite (constructor_run s input obj Hl), Hv. reflexivity.
  - simpl. repeat split.
    + exact Hnew.
    + apply fresh_unallocated.
    + apply lookup_insert_eq.
    + intros l Hne. apply lookup_insert_ne. congruence.
    + intros obj'. apply lookup_insert_ne. congruence.
Qed.

Lemma C9_defensive_copy_witness :
  exists (this : TickClient.t) (s' : State),
    TickClient.constructor 1%positive (store 1%positive acme_extra) = (Resolved this, s') /\
    TickClient.config this <> 1%positive /\
    heap (store 1%positive acme_extra) !! TickClient.config this = None /\
    heap s' !! TickClient.config this
    = Some [ ("subscriptionId", JStr "acme"); ("apiToken", JStr "tok");
             ("userAgent", JStr "App/1.0") ] /\
    (forall l : loc, l <> TickClient.config this ->
                     heap s' !! l = heap (store 1%positive acme_extra) !! l) /\
    globalConfig s' = None /\
    requests s' = [] /\
    (forall obj' : JsObject,
        <[1%positive := obj']> (heap s') !! TickClient.config this
        = heap s' !! TickClient.config this).
Proof.
  apply (C9_defensive_copy (store 1%positive acme_extra) 1%positive acme_extra);
    reflexivity.
Defined.

(* ===================================================================== *)
(** * The entries filter                                                  *)
(* ===================================================================== *)

(** C10.  The check of the four entries listings tests truthiness, so an
    empty string counts as absent.  A filter whose [start_date] is a
    non-empty string, whose [end_date] is the empty string and whose
    [updated_at] is the empty string or absent is rejected with the
    cross-field error although every field it has is a defined string; and
    an [updated_at] that is the empty string does not satisfy the check: the
    filter is rejected unless both dates are truthy.  In both cases the
    state is unchanged, so nothing was sent. *)
Theorem C10_empty_string_is_absent `{Platform}
    (this : TickClient.t) (e : Endpoint) (params : JsObject) (s : State) :
  entries_filter e = Some params ->
  (forall start : string,
      start <> EmptyString ->
      Js.get params "start_date" = JStr start ->
      Js.get params "end_date" = JStr EmptyString ->
      Js.get params "updated_at" = JStr EmptyString
      \/ Js.get params "updated_at" = JUndefined ->
      call this e s
      = (Rejected (Error "Either start_date and end_date OR updated_at must be provided"), s)
      /\ api e s
         = (Rejected (Error "Either start_date and end_date OR updated_at must be provided"), s))
  /\
  (Js.get params "updated_at" = JStr EmptyString ->
   Js.truthy (Js.get params "start_date") && Js.truthy (Js.get params "end_date") = false ->
   call this e s
   = (Rejected (Error "Either start_date and end_date OR updated_at must be provided"), s)
   /\ api e s
      = (Rejected (Error "Either start_date and end_date OR updated_at must be provided"), s)).
Proof.
  intros Hfilter.
  assert (Hreject : date_range_ok params = false ->
                    call this e s = (Rejected (Error Entries.date_range_required), s)
                    /\ api e s = (Rejected (Error Entries.date_range_required), s)).
  { intros Hno.
    assert (Hadm : admissible e = false) by (unfold admissible; rewrite Hfilter; exact Hno).
    split; [ apply call_rejects_filter | apply api_rejects_filter ]; exact Hadm. }
  split.
  - intros start Hstart Hs He Hu. apply Hreject.
    unfold date_range_ok. rewrite Hs, He.
    destruct Hu as [Hu|Hu]; rewrite Hu; simpl; rewrite andb_false_r; reflexivity.
  - intros Hu Hdates. apply Hreject.
    unfold date_range_ok. rewrite Hu, Hdates. reflexivity.
Qed.

Lemma C10_empty_string_is_absent_witness :
  @call (replying (reply 200 "OK")) acme_client
        (GetTaskEntries 7
           [ ("start_date", JStr "2024-01-01"); ("end_date", JStr EmptyString);
             ("updated_at", JStr EmptyString) ])
        acme_store
  = (Rejected (Error "Either start_date and end_date OR updated_at must be provided"),
     acme_store)
  /\
  @call (replying (reply 200 "OK")) acme_client
        (GetEntries [ ("updated_at", JStr EmptyString) ]) acme_store
  = (Rejected (Error "Either start_date and end_date OR updated_at must be provided"),
     acme_store).
Proof.
  split.
  - apply (proj1 (@C10_empty_string_is_absent (replying (reply 200 "OK")) acme_client
                    (GetTaskEntries 7 _) _ acme_store eq_refl) "2024-01-01").
    + discriminate.
    + reflexivity.
    + reflexivity.
    + left. reflexivity.
  - apply (proj2 (@C10_empty_string_is_absent (replying (reply 200 "OK")) acme_client
                    (GetEntries _) _ acme_store eq_refl)); reflexivity.
Defined.

(** C2, as stated, fails: a filter that supplies both [start_date] and
    [end_date], the second as the empty string, is rejected and nothing is
    sent. *)
Lemma C2_counterexample :
  Js.is_undefined
    (Js.get [ ("start_date", JStr "2024-01-01"); ("end_date", JStr EmptyString) ]
            "start_date") = false /\
  Js.is_undefined
    (Js.get [ ("start_date", JStr "2024-01-01"); ("end_date", JStr EmptyString) ]
            "end_date") = false /\
  @call (replying (reply 200 "OK")) acme_client
        (GetEntries [ ("start_date", JStr "2024-01-01"); ("end_date", JStr EmptyString) ])
        acme_store
  = (Rejected (Error "Either start_date and end_date OR updated_at must be provided"),
     acme_store).
Proof. repeat split. Qed.

(** C2, amended.  For each of the four entries listings: when neither
    ([start_date] and [end_date] both truthy) nor ([updated_at] truthy)
    holds, the call fails with the cross-field error and the state is
    unchanged (no request was sent); when both dates are truthy, or
    [updated_at] is, exactly one request, a GET, is sent and the call
    settles with what the endpoint makes of the transport's answer. *)
Theorem C2_entries_precondition `{Platform}
    (this : TickClient.t) (e : Endpoint) (params : JsObject) (s : State)
    (cfg : JsObject) :
  entries_filter e = Some params ->
  owns s this cfg ->
  ((Js.truthy (Js.get params "start_date") && Js.truthy (Js.get params "end_date"))
   || Js.truthy (Js.get params "updated_at") = false ->
   call this e s
   = (Rejected (Error "Either start_date and end_date OR updated_at must be provided"), s)
   /\ api e s
      = (Rejected (Error "Either start_date and end_date OR updated_at must be provided"), s))
  /\
  ((Js.truthy (Js.get params "start_date") && Js.truthy (Js.get params "end_date"))
   || Js.truthy (Js.get params "updated_at") = true ->
   exists req : Request,
     sends this e s req /\
     method req = "GET" /\
     outcome (call this e) s = answer e (transport (requests s) req)).
Proof.
  intros Hfilter Hown. split.
  - intros Hno.
    assert (Hadm : admissible e = false) by (unfold admissible; rewrite Hfilter; exact Hno).
    split; [ apply call_rejects_filter | apply api_rejects_filter ]; exact Hadm.
  - intros Hyes.
    assert (Hadm : admissible e = true) by (unfold admissible; rewrite Hfilter; exact Hyes).
    exists (request_of cfg e). unfold sends, final, outcome.
    rewrite (call_run this e s cfg Hown Hadm). repeat split.
    destruct e; try discriminate Hfilter; reflexivity.
Qed.

Lemma C2_entries_precondition_witness :
  (@call (replying (reply 200 "OK")) acme_client
         (GetEntries [ ("start_date", JStr "2024-01-01") ]) acme_store
   = (Rejected (Error "Either start_date and end_date OR updated_at must be provided"),
      acme_store)
   /\ @api (replying (reply 200 "OK"))
           (GetEntries [ ("start_date", JStr "2024-01-01") ]) acme_store
      = (Rejected (Error "Either start_date and end_date OR updated_at must be provided"),
         acme_store))
  /\
  exists req : Request,
    @sends (replying (reply 200 "OK")) acme_client
           (GetEntries [ ("updated_at", JStr "2024-01-01T00:00:00Z") ]) acme_store req /\
    method req = "GET" /\
    outcome (@call (replying (reply 200 "OK")) acme_client
                   (GetEntries [ ("updated_at", JStr "2024-01-01T00:00:00Z") ]))
            acme_store
    = @answer (replying (reply 200 "OK"))
              (GetEntries [ ("updated_at", JStr "2024-01-01T00:00:00Z") ])
              (Resolved (reply 200 "OK")).
Proof.
  split.
  - apply (proj1 (@C2_entries_precondition (replying (reply 200 "OK")) acme_client
                    (GetEntries _) _ acme_store acme eq_refl eq_refl)).
    reflexivity.
  - apply (proj2 (@C2_entries_precondition (replying (reply 200 "OK")) acme_client
                    (GetEntries _) _ acme_store acme eq_refl eq_refl)).
    reflexivity.
Defined.

(* ===================================================================== *)
(** * Status mapping                                                      *)
(* ===================================================================== *)

(** C3, as stated, fails: [getClients] does not single out status 403.  Its
    failure on a 403 answer is the generic one, made of the status code and
    the status text, and names no privilege. *)
Lemma C3_counterexample :
  outcome (@call (replying (reply 403 "Forbidden")) acme_client GetClients) acme_store
  = Rejected (Error "Failed to fetch clients: 403 Forbidden") /\
  JsString.includes "Failed to fetch clients: 403 Forbidden" "administrators" = false.
Proof. split; reflexivity. Qed.

(** C3, amended.  Let the transport answer a call with a non-success
    status.  The endpoints restricted to administrators (those of the table
    [forbidden]: the deleted-users list, user creation, and creation, update
    and deletion of clients, projects and tasks) turn status 403 into their
    own fixed message, which names the privilege; client deletion and task
    deletion, and no other endpoint, turn status 406 into a fixed message
    about the projects, respectively the entries, that remain; every other
    combination of endpoint and non-success status, 403 on the remaining
    endpoints included, gives the generic failure made of the endpoint's
    label, the status code and the transport's status text. *)
Theorem C3_status_mapping `{Platform}
    (this : TickClient.t) (e : Endpoint) (s : State) (cfg : JsObject) (r : Response) :
  owns s this cfg ->
  admissible e = true ->
  (forall req : Request, transport (requests s) req = Resolved r) ->
  ok r = false ->
  (forall m : string,
      status r = 403 -> forbidden e = Some m ->
      outcome (call this e) s = Rejected (Error m)
      /\ JsString.includes m "Only administrators can" = true) /\
  (forall m : string,
      status r = 406 -> conflict e = Some m ->
      outcome (call this e) s = Rejected (Error m)) /\
  ((status r = 403 -> forbidden e = None) ->
   (status r = 406 -> conflict e = None) ->
   outcome (call this e) s
   = Rejected (Error (label e +:+ ": " +:+ Js.Number_toString (status r)
                      +:+ " " +:+ statusText r))) /\
  (forall id : Z,
      forbidden (DeleteClient id) = Some "Forbidden: Only administrators can delete clients"
      /\ conflict (DeleteClient id)
         = Some "Client cannot be deleted because it still has associated projects") /\
  (forall id : string,
      conflict (DeleteTask id)
      = Some "Failed to delete task: Only tasks without any entries can be deleted") /\
  (forall m : string,
      conflict e = Some m ->
      (exists id, e = DeleteClient id) \/ (exists id, e = DeleteTask id)).
Proof.
  intros Hown Hadm Hreply Hko.
  assert (Hout : outcome (call this e) s = Rejected (Error (failure e r))).
  { unfold outcome. rewrite (call_run this e s cfg Hown Hadm), Hreply.
    simpl. unfold respond. rewrite Hko. reflexivity. }
  rewrite Hout. unfold failure, generic_failure.
  split; [ | split; [ | split; [ | split; [ | split ] ] ] ].
  - intros m H403 Hf. rewrite Hf, H403. simpl. split; [ reflexivity | ].
    destruct e; simpl in Hf; inversion Hf; reflexivity.
  - intros m H406 Hc. rewrite Hc, H406.
    destruct (forbidden e); reflexivity.
  - intros Hnf Hnc.
    destruct (forbidden e) as [mf|] eqn:Hf, (conflict e) as [mc|] eqn:Hc;
      repeat match goal with
        | |- context [status r =? ?n] =>
            let E := fresh "E" in
            destruct (Z.eqb_spec (status r) n) as [E|E];
            [ first [ specialize (Hnf E) | specialize (Hnc E) ]; discriminate | ]
        end; reflexivity.
  - intros id. split; reflexivity.
  - intros id. reflexivity.
  - intros m Hc. destruct e; simpl in Hc; try discriminate Hc; eauto.
Qed.

Lemma C3_status_mapping_witness :
  (outcome (@call (replying (reply 403 "Forbidden")) acme_client (DeleteClient 42)) acme_store
   = Rejected (Error "Forbidden: Only administrators can delete clients")
   /\ JsString.includes "Forbidden: Only administrators can delete clients"
                        "Only administrators can" = true) /\
  outcome (@call (replying (reply 406 "Not Acceptable")) acme_client (DeleteClient 42))
          acme_store
  = Rejected (Error "Client cannot be deleted because it still has associated projects") /\
  outcome (@call (replying (reply 500 "Internal Server Error")) acme_client (DeleteClient 42))
          acme_store
  = Rejected (Error "Failed to delete client with ID 42: 500 Internal Server Error").
Proof.
  split; [ | split ].
  - apply (proj1 (@C3_status_mapping (replying (reply 403 "Forbidden")) acme_client
                    (DeleteClient 42) acme_store acme (reply 403 "Forbidden")
                    eq_refl eq_refl (fun _ => eq_refl) eq_refl)); reflexivity.
  - apply (proj1 (proj2 (@C3_status_mapping (replying (reply 406 "Not Acceptable"))
                           acme_client (DeleteClient 42) acme_store acme
                           (reply 406 "Not Acceptable")
                           eq_refl eq_refl (fun _ => eq_refl) eq_refl))); reflexivity.
  - apply (proj1 (proj2 (proj2 (@C3_status_mapping
                                  (replying (reply 500 "Internal Server Error"))
                                  acme_client (DeleteClient 42) acme_store acme
                                  (reply 500 "Internal Server Error")
                                  eq_refl eq_refl (fun _ => eq_refl) eq_refl))));
      discriminate.
Defined.

(* ===================================================================== *)
(** * Query strings and bodies                                            *)
(* ===================================================================== *)

Lemma append_assoc (a b c : string) : (a +:+ b) +:+ c = a +:+ b +:+ c.
Proof. induction a as [ | x a IH ]; simpl; [ reflexivity | rewrite IH; reflexivity ]. Qed.

Lemma defined_fields_spec (params : JsObject) (key : string) (value : JsValue) :
  In (key, value) (defined_fields params) <-> In (key, value) params /\ value <> JUndefined.
Proof.
  unfold defined_fields. rewrite filter_In. split.
  - intros [Hin Hdef]. split; [ exact Hin | ].
    intros ->. discriminate Hdef.
  - intros [Hin Hdef]. split; [ exact Hin | ].
    destruct value; try reflexivity. contradiction.
Qed.

Lemma query_of_join (params : JsObject) :
  query_of params
  = JsString.join "&"
      (List.map (fun '(key, value) =>
                   URLSearchParams.encode key +:+ "="
                   +:+ URLSearchParams.encode (Js.ToString value))
                (defined_fields params)).
Proof.
  unfold query_of, URLSearchParams.toString. rewrite List.map_map.
  f_equal. apply List.map_ext. intros [key value]. reflexivity.
Qed.

Lemma entries_path (e : Endpoint) (params : JsObject) :
  entries_filter e = Some params ->
  path e = entries_resource e +:+ "?" +:+ query_of params.
Proof.
  intros Hfilter.
  destruct e; try discriminate Hfilter; injection Hfilter as ->; simpl;
    rewrite ?append_assoc; reflexivity.
Qed.

(** C7, as stated, fails for the projects lists: [page: 0] is a defined
    field of the filter, yet the request carries no query string. *)
Lemma C7_counterexample :
  Js.is_undefined (Js.get [ ("page", JNum 0) ] "page") = false /\
  List.map url
    (requests (final (@call (replying (reply 200 "OK")) acme_client
                            (GetProjects (Some [ ("page", JNum 0) ])))
                     acme_store))
  = [ "https://www.tickspot.com/acme/api/v2/projects.json" ].
Proof. split; reflexivity. Qed.

(** C7, amended.  An entries listing whose filter passes the check sends
    one request whose URL is the resource, a question mark and the query
    string; the query string joins with [&] one [name=value] pair, both
    sides URL-encoded, for each field of the filter that is not [undefined]
    and for no other, in the order of the filter, the value being the string
    form of the field ([true], [false], decimal digits, or the string
    itself).  The two projects lists look at [page] only and append
    [?page=<page>] when [page] is truthy; when it is absent, [undefined] or
    falsy (the number 0) the URL has no query string. *)
Theorem C7_query_strings `{Platform} (this : TickClient.t) (s : State) (cfg : JsObject) :
  owns s this cfg ->
  (forall (e : Endpoint) (params : JsObject),
      entries_filter e = Some params ->
      admissible e = true ->
      exists req : Request,
        sends this e s req /\
        url req = url_of cfg (entries_resource e +:+ "?" +:+ query_of params)) /\
  (forall params : JsObject,
      query_of params
      = JsString.join "&"
          (List.map (fun '(key, value) =>
                       URLSearchParams.encode key +:+ "="
                       +:+ URLSearchParams.encode (Js.ToString value))
                    (defined_fields params))
      /\ forall (key : string) (value : JsValue),
          In (key, value) (defined_fields params)
          <-> In (key, value) params /\ value <> JUndefined) /\
  (forall params : option JsObject,
      let page := Js.get (default [] params) "page" in
      let query := if Js.truthy page
                   then "?page=" +:+ URLSearchParams.encode (Js.ToString page)
                   else EmptyString in
      (exists req : Request,
          sends this (GetProjects params) s req /\
          url req = url_of cfg ("projects.json" +:+ query)) /\
      (exists req : Request,
          sends this (GetClosedProjects params) s req /\
          url req = url_of cfg ("projects/closed.json" +:+ query))).
Proof.
  intros Hown. split; [ | split ].
  - intros e params Hfilter Hadm.
    exists (request_of cfg e). unfold sends, final.
    rewrite (call_run this e s cfg Hown Hadm). split; [ reflexivity | ].
    simpl. rewrite (entries_path e params Hfilter). reflexivity.
  - intros params. split; [ apply query_of_join | apply defined_fields_spec ].
  - intros params page query. split.
    + exists (request_of cfg (GetProjects params)). unfold sends, final.
      rewrite (call_run this (GetProjects params) s cfg Hown eq_refl).
      split; reflexivity.
    + exists (request_of cfg (GetClosedProjects params)). unfold sends, final.
      rewrite (call_run this (GetClosedProjects params) s cfg Hown eq_refl).
      split; reflexivity.
Qed.

Lemma C7_query_strings_witness :
  (exists req : Request,
      @sends (replying (reply 200 "OK")) acme_client
             (GetUserEntries 5 january) acme_store req /\
      url req
      = "https://www.tickspot.com/acme/api/v2/users/5/entries.json?start_date=2024-01-01&end_date=2024-01+31&billable=true&project_id=7") /\
  (exists req : Request,
      @sends (replying (reply 200 "OK")) acme_client
             (GetProjects (Some [ ("page", JNum 2) ])) acme_store req /\
      url req = "https://www.tickspot.com/acme/api/v2/projects.json?page=2").
Proof.
  pose proof (@C7_query_strings (replying (reply 200 "OK")) acme_client acme_store acme
                eq_refl) as (Hentries & _ & Hprojects).
  split.
  - apply (Hentries (GetUserEntries 5 january) january eq_refl eq_refl).
  - apply (proj1 (Hprojects (Some [ ("page", JNum 2) ]))).
Defined.

Lemma stringify_object (params : JsObject) :
  exists text : string, JSON.stringify (JObj params) = Some text.
Proof. simpl. eexists. reflexivity. Qed.

Lemma stringify_wrapped (key : string) (params : JsObject) (text : string) :
  JSON.stringify (JObj params) = Some text ->
  JSON.stringify (JObj [ (key, JObj params) ])
  = Some ("{" +:+ JSON.quote key +:+ ":" +:+ text +:+ "}").
Proof.
  intros Htext.
  change (JSON.stringify (JObj [ (key, JObj params) ]))
    with (Some ("{" +:+ JsString.join ","
                          match JSON.stringify (JObj params) with
                          | Some sx => [ JSON.quote key +:+ ":" +:+ sx ]
                          | None => []
                          end +:+ "}")).
  rewrite Htext. unfold JsString.join.
  rewrite (append_assoc (JSON.quote key)). reflexivity.
Qed.

(** C8.  Every create operation sends one POST whose body is the JSON text
    of the caller's parameter object: under the key [user] for user
    creation and under the key [project] for project creation, and as it is
    for client, task and entry creation. *)
Theorem C8_create_bodies `{Platform}
    (this : TickClient.t) (s : State) (cfg : JsObject) (params : JsObject) :
  owns s this cfg ->
  exists text : string,
    JSON.stringify (JObj params) = Some text /\
    forall e : Endpoint,
      In e [ CreateUser params; CreateClient params; CreateProject params;
             CreateTask params; CreateEntry params ] ->
      exists req : Request,
        sends this e s req /\
        method req = "POST" /\
        body req
        = Some match e with
               | CreateUser _ => "{" +:+ JSON.quote "user" +:+ ":" +:+ text +:+ "}"
               | CreateProject _ => "{" +:+ JSON.quote "project" +:+ ":" +:+ text +:+ "}"
               | _ => text
               end.
Proof.
  intros Hown.
  destruct (stringify_object params) as [text Htext].
  exists text. split; [ exact Htext | ].
  intros e He.
  exists (request_of cfg e). unfold sends, final.
  assert (Hadm : admissible e = true)
    by (simpl in He; decompose [or] He; subst; try reflexivity; contradiction).
  rewrite (call_run this e s cfg Hown Hadm).
  split; [ reflexivity | ].
  simpl in He; decompose [or] He; subst; try contradiction;
    (split; [ reflexivity | ]); unfold request_of, body, payload;
    first [ exact Htext | apply stringify_wrapped; exact Htext ].
Qed.

Lemma C8_create_bodies_witness :
  exists text : string,
    JSON.stringify (JObj [ ("name", JStr "Web"); ("budget", JNum 40) ]) = Some text /\
    forall e : Endpoint,
      In e [ CreateUser [ ("name", JStr "Web"); ("budget", JNum 40) ];
             CreateClient [ ("name", JStr "Web"); ("budget", JNum 40) ];
             CreateProject [ ("name", JStr "Web"); ("budget", JNum 40) ];
             CreateTask [ ("name", JStr "Web"); ("budget", JNum 40) ];
             CreateEntry [ ("name", JStr "Web"); ("budget", JNum 40) ] ] ->
      exists req : Request,
        @sends (replying (reply 201 "Created")) acme_client e acme_store req /\
        method req = "POST" /\
        body req
        = Some match e with
               | CreateUser _ => "{" +:+ JSON.quote "user" +:+ ":" +:+ text +:+ "}"
               | CreateProject _ => "{" +:+ JSON.quote "project" +:+ ":" +:+ text +:+ "}"
               | _ => text
               end.
Proof.
  apply (@C8_create_bodies (replying (reply 201 "Created")) acme_client acme_store acme
           [ ("name", JStr "Web"); ("budget", JNum 40) ]).
  reflexivity.
Defined.

(* ===================================================================== *)
(** * The query string can be read back                                   *)
(* ===================================================================== *)

Lemma occurs_append (c : ascii) (a b : string) :
  occurs c (a +:+ b) = occurs c a || occurs c b.
Proof.
  induction a as [ | x a IH ]; simpl; [ reflexivity | ].
  rewrite IH. apply orb_assoc.
Qed.

Ltac each_byte a :=
  destruct a as [[|] [|] [|] [|] [|] [|] [|] [|]]; reflexivity.

Lemma encodeByte_no_ampersand (a : ascii) :
  occurs "&" (URLSearchParams.encodeByte a) = false.
Proof. each_byte a. Qed.

Lemma encodeByte_no_equals (a : ascii) :
  occurs "=" (URLSearchParams.encodeByte a) = false.
Proof. each_byte a. Qed.

Lemma encode_no_ampersand (s : string) : occurs "&" (URLSearchParams.encode s) = false.
Proof.
  induction s as [ | a s IH ]; simpl; [ reflexivity | ].
  rewrite occurs_append, encodeByte_no_ampersand, IH. reflexivity.
Qed.

Lemma encode_no_equals (s : string) : occurs "=" (URLSearchParams.encode s) = false.
Proof.
  induction s as [ | a s IH ]; simpl; [ reflexivity | ].
  rewrite occurs_append, encodeByte_no_equals, IH. reflexivity.
Qed.

Lemma decode_encodeByte (a : ascii) (rest : string) :
  URLSearchParams.decode (URLSearchParams.encodeByte a +:+ rest)
  = String a (URLSearchParams.decode rest).
Proof. each_byte a. Qed.

Lemma decode_encode (s : string) : URLSearchParams.decode (URLSearchParams.encode s) = s.
Proof.
  induction s as [ | a s IH ]; simpl; [ reflexivity | ].
  rewrite decode_encodeByte, IH. reflexivity.
Qed.

Lemma cut_at (sep : ascii) (a b : string) :
  occurs sep a = false ->
  URLSearchParams.cut sep (a +:+ String sep b) = (a, b).
Proof.
  induction a as [ | x a IH ]; simpl.
  - intros _. rewrite Ascii.eqb_refl. reflexivity.
  - intros Hno. apply orb_false_elim in Hno as [Hx Ha].
    rewrite Hx, (IH Ha). reflexivity.
Qed.

Lemma fields_whole (sep : ascii) (a : string) :
  occurs sep a = false -> URLSearchParams.fields sep a = [a].
Proof.
  induction a as [ | x a IH ]; simpl; [ reflexivity | ].
  intros Hno. apply orb_false_elim in Hno as [Hx Ha].
  rewrite Hx, (IH Ha). reflexivity.
Qed.

Lemma fields_at (sep : ascii) (a b : string) :
  occurs sep a = false ->
  URLSearchParams.fields sep (a +:+ String sep b) = a :: URLSearchParams.fields sep b.
Proof.
  induction a as [ | x a IH ]; simpl.
  - intros _. rewrite Ascii.eqb_refl. reflexivity.
  - intros Hno. apply orb_false_elim in Hno as [Hx Ha].
    rewrite Hx, (IH Ha). reflexivity.
Qed.

Lemma fields_join (sep : ascii) (l : list string) :
  l <> [] ->
  Forall (fun x => occurs sep x = false) l ->
  URLSearchParams.fields sep (JsString.join (String sep EmptyString) l) = l.
Proof.
  induction l as [ | x l IH ]; [ contradiction | ].
  intros _ Hall. inversion Hall as [ | ? ? Hx Hl ]; subst.
  destruct l as [ | y l ].
  - simpl. apply fields_whole. exact Hx.
  - change (JsString.join (String sep EmptyString) (x :: y :: l))
      with (x +:+ String sep (JsString.join (String sep EmptyString) (y :: l))).
    rewrite (fields_at sep x _ Hx), IH; [ reflexivity | discriminate | exact Hl ].
Qed.

Lemma pair_text_no_ampersand (p : string * string) :
  occurs "&" (URLSearchParams.pair_text p) = false.
Proof.
  destruct p as [n v]. unfold URLSearchParams.pair_text.
  rewrite !occurs_append, !encode_no_ampersand. reflexivity.
Qed.

Lemma pair_text_read (p : string * string) :
  JsString.isEmpty (URLSearchParams.pair_text p) = false /\
  (let '(n, v) := URLSearchParams.cut "=" (URLSearchParams.pair_text p) in
   (URLSearchParams.decode n, URLSearchParams.decode v)) = p.
Proof.
  destruct p as [n v]. unfold URLSearchParams.pair_text. split.
  - destruct (URLSearchParams.encode n); reflexivity.
  - change ("=" +:+ URLSearchParams.encode v) with (String "=" (URLSearchParams.encode v)).
    rewrite (cut_at "=" _ _ (encode_no_equals n)), !decode_encode. reflexivity.
Qed.

(** Parsing what [URLSearchParams.toString] prints gives the pairs back:
    nothing is lost or added by the encoding. *)
Lemma parse_toString (q : URLSearchParams.t) :
  URLSearchParams.parse (URLSearchParams.toString q) = q.
Proof.
  unfold URLSearchParams.parse, URLSearchParams.toString.
  destruct q as [ | p q ]; [ reflexivity | ].
  rewrite (fields_join "&" (List.map URLSearchParams.pair_text (p :: q))).
  - induction (p :: q) as [ | x l IH ]; [ reflexivity | ].
    destruct (pair_text_read x) as [Hne Hread].
    simpl. rewrite Hne. simpl. rewrite Hread, IH. reflexivity.
  - discriminate.
  - apply List.Forall_forall. intros x Hx. apply in_map_iff in Hx as (p' & <- & _).
    apply pair_text_no_ampersand.
Qed.

(** What the server reads from the query of an entries listing: the fields
    of the filter that are not [undefined], each with its string form. *)
Lemma query_of_read (params : JsObject) :
  URLSearchParams.parse (query_of params)
  = List.map (fun '(key, value) => (key, Js.ToString value)) (defined_fields params).
Proof. unfold query_of. apply parse_toString. Qed.

(* ===================================================================== *)
(** * Sequential use, and the scenario of the specification               *)
(* ===================================================================== *)

(** Calls that do not overlap do not mix configurations: a call on [a],
    then one on [b], then one on [a] again send requests built from the
    configuration of the facade they were made on, and leave the active
    configuration as it was before the first. *)
Lemma sequential_calls `{Platform}
    (a b : TickClient.t) (cfgA cfgB : JsObject) (e1 e2 e3 : Endpoint) (s : State) :
  owns s a cfgA -> owns s b cfgB ->
  admissible e1 = true -> admissible e2 = true -> admissible e3 = true ->
  let s1 := final (call a e1) s in
  let s2 := final (call b e2) s1 in
  let s3 := final (call a e3) s2 in
  requests s3
  = (requests s ++ [ request_of cfgA e1; request_of cfgB e2; request_of cfgA e3 ])%list
  /\ globalConfig s3 = globalConfig s.
Proof.
  intros Ha Hb H1 H2 H3 s1 s2 s3.
  assert (E1 : s1 = with_request s (request_of cfgA e1))
    by (unfold s1, final; rewrite (call_run a e1 s cfgA Ha H1); reflexivity).
  assert (E2 : s2 = with_request s1 (request_of cfgB e2)).
  { unfold s2, final. rewrite (call_run b e2 s1 cfgB); [ reflexivity | | exact H2 ].
    rewrite E1. exact Hb. }
  assert (E3 : s3 = with_request s2 (request_of cfgA e3)).
  { unfold s3, final. rewrite (call_run a e3 s2 cfgA); [ reflexivity | | exact H3 ].
    rewrite E2, E1. exact Ha. }
  rewrite E3, E2, E1. simpl. rewrite <- !app_assoc. split; reflexivity.
Qed.

(** The clients list with the configuration [acme]: one GET to the URL of
    the subscription, with the token and the user agent and no content
    type; the body of a 200 answer is returned as it is. *)
Example clients_list_scenario :
  @call (replying {| status := 200; statusText := "OK";
                     json := Resolved (JArr [ JObj [ ("id", JNum 1); ("name", JStr "Acme") ] ]) |})
        acme_client GetClients acme_store
  = (Resolved (JArr [ JObj [ ("id", JNum 1); ("name", JStr "Acme") ] ]),
     with_request acme_store
       {| url := "https://www.tickspot.com/acme/api/v2/clients.json";
          method := "GET";
          headers := [ ("Authorization", JStr "Token token=tok");
                       ("User-Agent", JStr "App/1.0") ];
          body := None |}).
Proof. reflexivity. Qed.

(* ===================================================================== *)
(** * The model on the cases of tests/test-client.js                      *)
(* ===================================================================== *)

Example rejects_empty_object :
  outcome (TickClient.constructor 1%positive) (store 1%positive [])
  = Rejected (configuration_error [ "subscriptionId"; "apiToken"; "userAgent" ]).
Proof. reflexivity. Qed.

Example rejects_partial_object :
  outcome (TickClient.constructor 1%positive)
          (store 1%positive [ ("subscriptionId", JStr "test123") ])
  = Rejected (Error ("Invalid TickClient configuration: "
                     +:+ "apiToken is required and must be a non-empty string, "
                     +:+ "userAgent is required and must be a non-empty string")).
Proof. reflexivity. Qed.

Example rejects_one_empty_string :
  outcome (TickClient.constructor 1%positive)
          (store 1%positive [ ("subscriptionId", JStr "valid-id");
                              ("apiToken", JStr EmptyString);
                              ("userAgent", JStr "Valid Agent") ])
  = Rejected (Error ("Invalid TickClient configuration: "
                     +:+ "apiToken is required and must be a non-empty string")).
Proof. reflexivity. Qed.

Example accepts_valid_object :
  outcome (TickClient.constructor 1%positive)
          (store 1%positive [ ("subscriptionId", JStr "test123");
                              ("apiToken", JStr "test-token");
                              ("userAgent", JStr "TestApp (test@example.com)") ])
  = Resolved {| TickClient.config := 2%positive |}.
Proof. reflexivity. Qed.

(** [trim] removes Unicode white space at both ends (here a no-break
    space in front and a line separator and a line feed behind) and none
    inside. *)
Example trim_unicode :
  JsString.trim (JsString.bytes [32; 9; 194; 160; 65; 32; 66; 226; 128; 168; 10]%nat)
  = "A B".
Proof. reflexivity. Qed.

Example stringify_wrapped_user :
  JSON.stringify (JObj [ ("user", JObj [ ("first_name", JStr "Ada");
                                         ("admin", JBool true);
                                         ("billable_rate", JUndefined) ]) ])
  = Some ("{" +:+ JSON.quote "user" +:+ ":{" +:+ JSON.quote "first_name" +:+ ":"
          +:+ JSON.quote "Ada" +:+ "," +:+ JSON.quote "admin" +:+ ":true}}").
Proof. reflexivity. Qed.

(* ===================================================================== *)
(** * Further properties of the facade and of the endpoint functions      *)
(* ===================================================================== *)

Lemma sequential_calls_witness :
  let s1 := final (@call (replying (reply 200 "OK")) acme_client GetClients) two_clients in
  let s2 := final (@call (replying (reply 200 "OK")) beta_client GetUsers) s1 in
  let s3 := final (@call (replying (reply 200 "OK")) acme_client (DeleteEntry "9")) s2 in
  requests s3
  = ([] ++ [ request_of acme GetClients; request_of beta GetUsers;
             request_of acme (DeleteEntry "9") ])%list
  /\ globalConfig s3 = None.
Proof.
  apply (@sequential_calls (replying (reply 200 "OK")) acme_client beta_client acme beta
           GetClients GetUsers (DeleteEntry "9") two_clients); reflexivity.
Defined.

Section Direct.
Context `{Platform}.

Ltac unfold_endpoints :=
  unfold Users.getUsers, Users.getDeletedUsers, Users.createUser,
    Clients.getClients, Clients.getAllClients, Clients.getClient,
    Clients.createClient, Clients.updateClient, Clients.deleteClient,
    Projects.getProjects, Projects.getClosedProjects, Projects.getProject,
    Projects.createProject, Projects.updateProject, Projects.deleteProject,
    Tasks.getTasks, Tasks.getProjectTasks, Tasks.getClosedTasks,
    Tasks.getProjectClosedTasks, Tasks.getTask, Tasks.createTask,
    Tasks.updateTask, Tasks.deleteTask,
    Entries.getEntries, Entries.getUserEntries, Entries.getProjectEntries,
    Entries.getTaskEntries, Entries.getEntry, Entries.createEntry,
    Entries.updateEntry, Entries.deleteEntry.

(** Used directly, with no active configuration, an endpoint function sends
    nothing and fails: with the error about [setGlobalConfig] when its input
    passes the filter check, and with the filter error otherwise, because
    the entries listings check their filter before they look at the
    configuration. *)
Theorem api_requires_configuration (e : Endpoint) (s : State) :
  globalConfig s = None ->
  api e s
  = (Rejected (Error (if admissible e
                      then "Global configuration is not set. Please call setGlobalConfig() first."
                      else "Either start_date and end_date OR updated_at must be provided")),
     s).
Proof.
  intros Hnull.
  destruct (admissible e) eqn:Hadm; [ | apply api_rejects_filter; exact Hadm ].
  destruct e; unfold admissible in Hadm; simpl in Hadm; simpl api; unfold_endpoints.
  all: try (rewrite date_range_check, Hadm; simpl (negb true); cbv iota).
  all: cbv zeta.
  all: rewrite (bind_fail (Util.createUrl _) _ s _ s (createUrl_null s _ Hnull)).
  all: reflexivity.
Qed.

(** After [setGlobalConfig(c)] the endpoint functions work without a
    facade: the request is built from the object [c], and [c] stays the
    active configuration afterwards (nothing restores the previous one). *)
Theorem api_after_setGlobalConfig (e : Endpoint) (s : State) (l : loc) (cfg : JsObject) :
  heap s !! l = Some cfg ->
  admissible e = true ->
  bind (Util.setGlobalConfig (Some l)) (fun _ => api e) s
  = (answer e (transport (requests s) (request_of cfg e)),
     with_request (with_global s (Some l)) (request_of cfg e)).
Proof.
  intros Hl Hadm.
  change (bind (Util.setGlobalConfig (Some l)) (fun _ => api e) s)
    with (api e (with_global s (Some l))).
  rewrite (api_run e (with_global s (Some l)) cfg); [ reflexivity | | exact Hadm ].
  exists l. split; [ reflexivity | exact Hl ].
Qed.

(** A success status.  The four deletions resolve with [undefined] and
    never read the body; every other method resolves with what the
    validator makes of the parsed body, for the schema of its endpoint, and
    a body that cannot be parsed, or that the validator refuses, rejects the
    call with that very error. *)
Theorem success_path (this : TickClient.t) (e : Endpoint) (s : State) (cfg : JsObject)
    (r : Response) :
  owns s this cfg ->
  admissible e = true ->
  transport (requests s) (request_of cfg e) = Resolved r ->
  ok r = true ->
  (verb e = "DELETE" -> outcome (call this e) s = Resolved JUndefined) /\
  (verb e <> "DELETE" ->
   exists schema : Schema,
     schema_of e = Some schema /\
     (forall x : JsError,
         json r = Rejected x -> outcome (call this e) s = Rejected x) /\
     (forall data : JsValue,
         json r = Resolved data -> outcome (call this e) s = zod_parse schema data)).
Proof.
  intros Hown Hadm Hreply Hok.
  assert (Hout : outcome (call this e) s = respond e r).
  { unfold outcome. rewrite (call_run this e s cfg Hown Hadm), Hreply. reflexivity. }
  rewrite Hout. unfold respond. rewrite Hok. split.
  - intros Hverb. destruct e; simpl in Hverb; try discriminate Hverb; reflexivity.
  - intros Hverb.
    destruct (schema_of e) as [schema|] eqn:Hschema.
    + exists schema. split; [ reflexivity | ].
      split; [ intros x Hjson | intros data Hjson ]; rewrite Hjson; reflexivity.
    + exfalso. apply Hverb. destruct e; simpl in Hschema; try discriminate Hschema; reflexivity.
Qed.

(** When the transport itself fails, the call fails with the transport's
    error, unchanged; the request was attempted once and the active
    configuration is the one found at entry. *)
Theorem transport_failure_propagates (this : TickClient.t) (e : Endpoint) (s : State)
    (cfg : JsObject) (x : JsError) :
  owns s this cfg ->
  admissible e = true ->
  transport (requests s) (request_of cfg e) = Rejected x ->
  call this e s = (Rejected x, with_request s (request_of cfg e)).
Proof.
  intros Hown Hadm Hreply.
  rewrite (call_run this e s cfg Hown Hadm), Hreply. reflexivity.
Qed.

(** Whatever the input and whatever the transport answers, a call through
    the facade leaves the store and the active configuration as it found
    them and calls the transport at most once: there is no retry. *)
Theorem call_frame (this : TickClient.t) (e : Endpoint) (s : State) (cfg : JsObject) :
  owns s this cfg ->
  heap (final (call this e) s) = heap s /\
  globalConfig (final (call this e) s) = globalConfig s /\
  (requests (final (call this e) s) = requests s
   \/ exists req : Request,
        requests (final (call this e) s) = (requests s ++ [req])%list).
Proof.
  intros Hown. unfold final.
  destruct (admissible e) eqn:Hadm.
  - rewrite (call_run this e s cfg Hown Hadm). simpl.
    repeat split. right. eexists. reflexivity.
  - rewrite (call_rejects_filter this e s Hadm). simpl.
    repeat split. left. reflexivity.
Qed.

End Direct.

Lemma api_requires_configuration_witness :
  @api (replying (reply 200 "OK")) (GetProject 3) acme_store
  = (Rejected (Error "Global configuration is not set. Please call setGlobalConfig() first."),
     acme_store)
  /\ @api (replying (reply 200 "OK")) (GetEntries []) acme_store
     = (Rejected (Error "Either start_date and end_date OR updated_at must be provided"),
        acme_store).
Proof.
  split.
  - apply (@api_requires_configuration (replying (reply 200 "OK")) (GetProject 3) acme_store).
    reflexivity.
  - apply (@api_requires_configuration (replying (reply 200 "OK")) (GetEntries []) acme_store).
    reflexivity.
Defined.

Lemma api_after_setGlobalConfig_witness :
  bind (Util.setGlobalConfig (Some 1%positive))
       (fun _ => @api (replying (reply 200 "OK")) GetTasks) acme_store
  = (@answer (replying (reply 200 "OK")) GetTasks (Resolved (reply 200 "OK")),
     with_request acme_active (request_of acme GetTasks)).
Proof.
  apply (@api_after_setGlobalConfig (replying (reply 200 "OK")) GetTasks acme_store
           1%positive acme); reflexivity.
Defined.

Lemma success_path_witness :
  outcome (@call (replying (reply 204 "No Content")) acme_client (DeleteTask "7")) acme_store
  = Resolved JUndefined
  /\
  outcome (@call (refusing (reply 200 "OK") (TypeError "expected string"))
                 acme_client (GetTask "7")) acme_store
  = Rejected (TypeError "expected string").
Proof.
  split.
  - apply (proj1 (@success_path (replying (reply 204 "No Content")) acme_client
                    (DeleteTask "7") acme_store acme (reply 204 "No Content")
                    eq_refl eq_refl eq_refl eq_refl)).
    reflexivity.
  - destruct (proj2 (@success_path (refusing (reply 200 "OK") (TypeError "expected string"))
                       acme_client (GetTask "7") acme_store acme (reply 200 "OK")
                       eq_refl eq_refl eq_refl eq_refl))
      as (schema & _ & _ & Hdata).
    + discriminate.
    + apply (Hdata JNull). reflexivity.
Defined.

Lemma transport_failure_propagates_witness :
  @call (failing (TypeError "fetch failed")) acme_client (CreateTask [ ("name", JStr "QA") ])
        acme_store
  = (Rejected (TypeError "fetch failed"),
     with_request acme_store (request_of acme (CreateTask [ ("name", JStr "QA") ]))).
Proof.
  apply (@transport_failure_propagates (failing (TypeError "fetch failed")) acme_client
           (CreateTask [ ("name", JStr "QA") ]) acme_store acme (TypeError "fetch failed"));
    reflexivity.
Defined.

Lemma call_frame_witness :
  heap (final (@call (replying (reply 500 "Oops")) acme_client GetUsers) acme_store)
  = heap acme_store /\
  globalConfig (final (@call (replying (reply 500 "Oops")) acme_client GetUsers) acme_store)
  = globalConfig acme_store /\
  (requests (final (@call (replying (reply 500 "Oops")) acme_client GetUsers) acme_store)
   = requests acme_store
   \/ exists req : Request,
        requests (final (@call (replying (reply 500 "Oops")) acme_client GetUsers) acme_store)
        = (requests acme_store ++ [req])%list).
Proof.
  apply (@call_frame (replying (reply 500 "Oops")) acme_client GetUsers acme_store acme).
  reflexivity.
Defined.

(* ===================================================================== *)
(** * What is sent                                                        *)
(* ===================================================================== *)

Lemma stringify_members (props : JsObject) :
  JSON.stringify (JObj props)
  = Some ("{" +:+ JsString.join "," (JSON_members props) +:+ "}").
Proof. reflexivity. Qed.

Lemma members_defined (params : JsObject) :
  JSON_members params = JSON_members (defined_fields params).
Proof.
  induction params as [ | [key value] params IH ]; [ reflexivity | ].
  destruct value as [ | | [|] | n | x | props | items ]; simpl; rewrite IH; reflexivity.
Qed.

Lemma stringify_defined (params : JsObject) :
  JSON.stringify (JObj params) = JSON.stringify (JObj (defined_fields params)).
Proof. rewrite !stringify_members, <- members_defined. reflexivity. Qed.

Section Sent.
Context `{Platform}.

(** The verb and the URL of every method: reads are GETs, creations POSTs,
    updates PUTs and deletions DELETEs, and the URL is the origin, the
    subscription id of the facade, [/api/v2/] and the relative path of the
    endpoint, with identifiers printed as they are. *)
Theorem wire_contract (this : TickClient.t) (e : Endpoint) (s : State) (cfg : JsObject) :
  owns s this cfg ->
  admissible e = true ->
  exists req : Request,
    sends this e s req /\
    method req = verb e /\
    url req
    = "https://www.tickspot.com/" +:+ Js.ToString (Js.get cfg "subscriptionId")
      +:+ "/api/v2/" +:+ path e /\
    (body req = None <-> verb e = "GET" \/ verb e = "DELETE").
Proof.
  intros Hown Hadm.
  exists (request_of cfg e). unfold sends, final.
  rewrite (call_run this e s cfg Hown Hadm).
  split; [ reflexivity | ]. split; [ reflexivity | ]. split; [ reflexivity | ].
  unfold request_of, body.
  destruct e; simpl verb; simpl payload;
    try (split; [ intros _; tauto | reflexivity ]);
    (split; [ intros Hnone | intros [Hv|Hv]; discriminate Hv ]);
    rewrite ?stringify_members in Hnone; discriminate Hnone.
Qed.


(** Every update sends one PUT whose body is the JSON text of the
    caller's parameter object: under the key [project] for a project, and as
    it is for a client, a task and an entry. *)
Theorem update_bodies (this : TickClient.t) (s : State) (cfg : JsObject)
    (id : Z) (name : string) (params : JsObject) :
  owns s this cfg ->
  exists text : string,
    JSON.stringify (JObj params) = Some text /\
    forall e : Endpoint,
      In e [ UpdateClient id params; UpdateProject id params;
             UpdateTask name params; UpdateEntry name params ] ->
      exists req : Request,
        sends this e s req /\
        method req = "PUT" /\
        body req
        = Some match e with
               | UpdateProject _ _ => "{" +:+ JSON.quote "project" +:+ ":" +:+ text +:+ "}"
               | _ => text
               end.
Proof.
  intros Hown.
  destruct (stringify_object params) as [text Htext].
  exists text. split; [ exact Htext | ].
  intros e He.
  exists (request_of cfg e). unfold sends, final.
  assert (Hadm : admissible e = true)
    by (simpl in He; decompose [or] He; subst; try reflexivity; contradiction).
  rewrite (call_run this e s cfg Hown Hadm).
  split; [ reflexivity | ].
  simpl in He; decompose [or] He; subst; try contradiction;
    (split; [ reflexivity | ]); unfold request_of, body, payload;
    first [ exact Htext | apply stringify_wrapped; exact Htext ].
Qed.

(** A property whose value is [undefined] is never sent: the body of a
    creation or of an update is the body for the parameter object without
    its undefined properties. *)
Theorem undefined_fields_are_not_sent (this : TickClient.t) (s : State) (cfg : JsObject)
    (id : Z) (name : string) (params : JsObject) :
  owns s this cfg ->
  let posted := fun e : Endpoint => List.map body (requests (final (call this e) s)) in
  posted (CreateUser params) = posted (CreateUser (defined_fields params)) /\
  posted (CreateClient params) = posted (CreateClient (defined_fields params)) /\
  posted (CreateProject params) = posted (CreateProject (defined_fields params)) /\
  posted (CreateTask params) = posted (CreateTask (defined_fields params)) /\
  posted (CreateEntry params) = posted (CreateEntry (defined_fields params)) /\
  posted (UpdateClient id params) = posted (UpdateClient id (defined_fields params)) /\
  posted (UpdateProject id params) = posted (UpdateProject id (defined_fields params)) /\
  posted (UpdateTask name params) = posted (UpdateTask name (defined_fields params)) /\
  posted (UpdateEntry name params) = posted (UpdateEntry name (defined_fields params)).
Proof.
  intros Hown posted.
  assert (Hpost : forall e, admissible e = true ->
                            posted e = List.map body (requests s ++ [request_of cfg e])%list).
  { intros e Hadm. unfold posted, final.
    rewrite (call_run this e s cfg Hown Hadm). reflexivity. }
  assert (Hwrap : forall key : string,
             JSON.stringify (JObj [ (key, JObj params) ])
             = JSON.stringify (JObj [ (key, JObj (defined_fields params)) ])).
  { intros key.
    destruct (stringify_object params) as [text Htext].
    rewrite (stringify_wrapped key params text Htext).
    rewrite stringify_defined in Htext.
    rewrite (stringify_wrapped key (defined_fields params) text Htext). reflexivity. }
  repeat split; rewrite !Hpost by reflexivity; rewrite !map_app; f_equal;
    unfold request_of; cbn [List.map body payload];
    first [ rewrite Hwrap; reflexivity
          | rewrite (stringify_defined params); reflexivity ].
Qed.

(** The facade works from its own copy.  After a successful construction,
    whatever is written later to the object the caller passed in, every
    call builds its request from the values that object had when the facade
    was constructed. *)
Theorem client_uses_its_copy (s : State) (input : loc) (obj obj' : JsObject) (e : Endpoint) :
  heap s !! input = Some obj ->
  violated obj = [] ->
  admissible e = true ->
  exists (this : TickClient.t) (s1 : State),
    TickClient.constructor input s = (Resolved this, s1) /\
    call this e (overwritten s1 input obj')
    = (answer e (transport (requests s) (request_of obj e)),
       with_request (overwritten s1 input obj') (request_of obj e)).
Proof.
  intros Hl Hv Hadm.
  assert (Hnew : input <> fresh (dom (heap s))).
  { intros Heq. rewrite Heq, fresh_unallocated in Hl. discriminate. }
  eexists _, _. split.
  - rewrite (constructor_run s input obj Hl), Hv. reflexivity.
  - rewrite (call_run _ e _ (copy_of obj)); [ reflexivity | | exact Hadm ].
    unfold owns, overwritten; simpl.
    rewrite lookup_insert_ne by exact Hnew. apply lookup_insert_eq.
Qed.

(** The query string of an entries listing reads back, with the parser of
    the URL standard, as exactly the fields of the filter that are not
    [undefined], in order, each with its string form: a name or a value
    containing [&], [=], a space or any other character cannot add, drop or
    change a parameter. *)
Theorem entries_query_reads_back (this : TickClient.t) (e : Endpoint) (params : JsObject)
    (s : State) (cfg : JsObject) :
  owns s this cfg ->
  entries_filter e = Some params ->
  admissible e = true ->
  exists (req : Request) (query : string),
    sends this e s req /\
    url req = url_of cfg (entries_resource e +:+ "?" +:+ query) /\
    URLSearchParams.parse query
    = List.map (fun '(key, value) => (key, Js.ToString value))
               (List.filter (fun '(_, value) => negb (Js.is_undefined value)) params).
Proof.
  intros Hown Hfilter Hadm.
  exists (request_of cfg e), (query_of params). unfold sends, final.
  rewrite (call_run this e s cfg Hown Hadm).
  split; [ reflexivity | ]. split.
  - simpl. rewrite (entries_path e params Hfilter). reflexivity.
  - apply query_of_read.
Qed.

End Sent.

Lemma wire_contract_witness :
  exists req : Request,
    @sends (replying (reply 200 "OK")) acme_client (GetProjectClosedTasks 12) acme_store req /\
    method req = "GET" /\
    url req = "https://www.tickspot.com/acme/api/v2/projects/12/tasks/closed.json" /\
    (body req = None <-> "GET" = "GET" \/ "GET" = "DELETE").
Proof.
  apply (@wire_contract (replying (reply 200 "OK")) acme_client (GetProjectClosedTasks 12)
           acme_store acme); reflexivity.
Defined.


Lemma update_bodies_witness :
  exists text : string,
    JSON.stringify (JObj [ ("budget", JNum 12) ]) = Some text /\
    forall e : Endpoint,
      In e [ UpdateClient 3 [ ("budget", JNum 12) ]; UpdateProject 3 [ ("budget", JNum 12) ];
             UpdateTask "3" [ ("budget", JNum 12) ]; UpdateEntry "3" [ ("budget", JNum 12) ] ] ->
      exists req : Request,
        @sends (replying (reply 200 "OK")) acme_client e acme_store req /\
        method req = "PUT" /\
        body req
        = Some match e with
               | UpdateProject _ _ => "{" +:+ JSON.quote "project" +:+ ":" +:+ text +:+ "}"
               | _ => text
               end.
Proof.
  apply (@update_bodies (replying (reply 200 "OK")) acme_client acme_store acme
           3 "3" [ ("budget", JNum 12) ]).
  reflexivity.
Defined.

Lemma undefined_fields_are_not_sent_witness :
  List.map body
    (requests (final (@call (replying (reply 201 "Created")) acme_client
                            (CreateClient [ ("name", JStr "Acme"); ("archive", JUndefined) ]))
                     acme_store))
  = List.map body
      (requests (final (@call (replying (reply 201 "Created")) acme_client
                              (CreateClient [ ("name", JStr "Acme") ]))
                       acme_store)).
Proof.
  apply (proj1 (proj2 (@undefined_fields_are_not_sent (replying (reply 201 "Created"))
                         acme_client acme_store acme 0 EmptyString
                         [ ("name", JStr "Acme"); ("archive", JUndefined) ] eq_refl))).
Defined.

Lemma client_uses_its_copy_witness :
  exists (this : TickClient.t) (s1 : State),
    TickClient.constructor 1%positive acme_store = (Resolved this, s1) /\
    @call (replying (reply 200 "OK")) this GetClients (overwritten s1 1%positive beta)
    = (@answer (replying (reply 200 "OK")) GetClients (Resolved (reply 200 "OK")),
       with_request (overwritten s1 1%positive beta) (request_of acme GetClients)).
Proof.
  apply (@client_uses_its_copy (replying (reply 200 "OK")) acme_store 1%positive acme beta
           GetClients); reflexivity.
Defined.

Lemma entries_query_reads_back_witness :
  exists (req : Request) (query : string),
    @sends (replying (reply 200 "OK")) acme_client (GetProjectEntries 4 january)
           acme_store req /\
    url req = url_of acme ("projects/4/entries.json" +:+ "?" +:+ query) /\
    URLSearchParams.parse query
    = [ ("start_date", "2024-01-01"); ("end_date", "2024-01 31");
        ("billable", "true"); ("project_id", "7") ].
Proof.
  apply (@entries_query_reads_back (replying (reply 200 "OK")) acme_client
           (GetProjectEntries 4 january) january acme_store acme); reflexivity.
Defined.

(* ===================================================================== *)
(** * Nesting and overlapping calls                                       *)
(* ===================================================================== *)

Lemma withConfig_enter_run (this : TickClient.t) (s : State) :
  withConfig_enter this s
  = (Resolved (globalConfig s), with_global s (Some (TickClient.config this))).
Proof. reflexivity. Qed.

Lemma withConfig_leave_run {T} (c : option loc) (o : Outcome T) (s : State) :
  withConfig_leave c o s = (o, with_global s c).
Proof. reflexivity. Qed.

(** The two pieces, run one after the other around [fn], are
    [withConfig]. *)
Lemma withConfig_enter_leave {T} (this : TickClient.t) (fn : M T) (s : State) :
  TickClient.withConfig this fn s
  = withConfig_leave (globalConfig s)
      (outcome fn (final (withConfig_enter this) s))
      (final fn (final (withConfig_enter this) s)).
Proof.
  rewrite withConfig_run, withConfig_leave_run. reflexivity.
Qed.

(** Calls may nest.  When an operation wrapped by the facade [a] itself
    makes a call wrapped by the facade [b], the inner operation [f] runs
    under the configuration of [b], what follows it runs under the
    configuration of [a] again, and at the end the configuration found at
    entry is active. *)
Theorem nested_calls {T U} (a b : TickClient.t) (f : M T) (g : T -> M U)
    (s : State) (x : T) (s' : State) :
  f (with_global s (Some (TickClient.config b))) = (Resolved x, s') ->
  TickClient.withConfig a (v <- TickClient.withConfig b f ;; g v) s
  = (outcome (g x) (with_global s' (Some (TickClient.config a))),
     with_global (final (g x) (with_global s' (Some (TickClient.config a))))
                 (globalConfig s)).
Proof.
  intros Hf.
  rewrite withConfig_run. unfold outcome, final, bind.
  rewrite withConfig_run. unfold outcome, final.
  change (with_global (with_global s (Some (TickClient.config a)))
                      (Some (TickClient.config b)))
    with (with_global s (Some (TickClient.config b))).
  rewrite Hf. reflexivity.
Qed.


Lemma nested_calls_witness :
  TickClient.withConfig acme_client
    (v <- TickClient.withConfig beta_client (Util.createUrl "users.json") ;;
     Util.createUrl v) two_clients
  = (Resolved ("https://www.tickspot.com/acme/api/v2/"
               +:+ "https://www.tickspot.com/beta/api/v2/users.json"),
     two_clients).
Proof.
  apply (@nested_calls string string acme_client beta_client
           (Util.createUrl "users.json") Util.createUrl two_clients
           "https://www.tickspot.com/beta/api/v2/users.json"
           (with_global two_clients (Some 2%positive))).
  reflexivity.
Defined.


(* ===================================================================== *)
(** * Which strings the constructor takes                                 *)
(* ===================================================================== *)

Lemma strip_one_blank (a : ascii) (s : string) :
  blank_byte a = true -> JsString.strip_one JsString.WhiteSpace (String a s) = Some s.
Proof.
  destruct a as [[|] [|] [|] [|] [|] [|] [|] [|]]; intros Hb;
    try discriminate Hb; reflexivity.
Qed.

Lemma strip_one_visible (a : ascii) (s : string) :
  visible a = true ->
  JsString.strip_one JsString.WhiteSpace (String a s) = None
  /\ JsString.strip_one (List.map JsString.rev JsString.WhiteSpace) (String a s) = None.
Proof.
  destruct a as [[|] [|] [|] [|] [|] [|] [|] [|]]; intros Hv;
    try discriminate Hv; split; reflexivity.
Qed.

Lemma strip_all_step (fuel : nat) (ws : list string) (s : string) :
  JsString.strip_all (S fuel) ws s
  = match JsString.strip_one ws s with
    | Some r => JsString.strip_all fuel ws r
    | None => s
    end.
Proof. reflexivity. Qed.

Lemma strip_all_blank (s : string) (fuel : nat) :
  all_blank s = true ->
  (String.length s <= fuel)%nat ->
  JsString.strip_all fuel JsString.WhiteSpace s = EmptyString.
Proof.
  revert fuel. induction s as [ | a s IH ]; intros fuel Hall Hfuel.
  - destruct fuel; reflexivity.
  - simpl in Hall. apply andb_prop in Hall as [Ha Hs].
    destruct fuel as [ | fuel ]; [ simpl in Hfuel; lia | ].
    rewrite strip_all_step, (strip_one_blank a s Ha).
    apply IH; [ exact Hs | simpl in Hfuel; lia ].
Qed.

Lemma trim_blank (s : string) : all_blank s = true -> JsString.trim s = EmptyString.
Proof.
  intros Hall. unfold JsString.trim, JsString.trimStart.
  rewrite (strip_all_blank s (String.length s) Hall (Nat.le_refl _)). reflexivity.
Qed.

Lemma rev_onto_rev (s acc : string) :
  JsString.rev_onto (JsString.rev_onto s acc) EmptyString = JsString.rev_onto acc s.
Proof.
  revert acc. induction s as [ | a s IH ]; intros acc; simpl; [ reflexivity | ].
  rewrite IH. reflexivity.
Qed.

Lemma rev_rev (s : string) : JsString.rev (JsString.rev s) = s.
Proof. unfold JsString.rev. rewrite rev_onto_rev. reflexivity. Qed.

Lemma rev_onto_head (rest : string) (a : ascii) (acc : string) :
  exists t : string,
    JsString.rev_onto rest (String a acc) = String (last_byte a rest) t.
Proof.
  revert a acc. induction rest as [ | b rest IH ]; intros a acc; simpl.
  - eexists. reflexivity.
  - apply IH.
Qed.

Lemma trim_bounded (s : string) : bounded s = true -> JsString.trim s = s.
Proof.
  destruct s as [ | a rest ]; [ discriminate | ].
  intros Hb. simpl in Hb. apply andb_prop in Hb as [Ha Hlast].
  assert (Hstart : JsString.trimStart (String a rest) = String a rest).
  { unfold JsString.trimStart. simpl String.length.
    rewrite strip_all_step, (proj1 (strip_one_visible a rest Ha)). reflexivity. }
  unfold JsString.trim. rewrite Hstart. unfold JsString.trimEnd.
  destruct (rev_onto_head rest a EmptyString) as [t Ht].
  assert (Hrev : JsString.rev (String a rest) = String (last_byte a rest) t) by exact Ht.
  rewrite Hrev. simpl String.length.
  rewrite strip_all_step, (proj2 (strip_one_visible _ t Hlast)).
  rewrite <- Hrev. apply rev_rev.
Qed.

(** A field that is a string of blanks only (spaces, tabs, line breaks),
    however long, makes the constructor fail, with an error that names the
    field, and nothing is stored. *)
Theorem blank_field_is_rejected (s : State) (input : loc) (obj : JsObject)
    (field x : string) :
  heap s !! input = Some obj ->
  In field required_fields ->
  Js.get obj field = JStr x ->
  all_blank x = true ->
  exists err : JsError,
    TickClient.constructor input s = (Rejected err, s) /\
    JsString.includes (error_message err)
                      (field +:+ " is required and must be a non-empty string") = true.
Proof.
  intros Hl Hfield Hget Hall.
  assert (Hacc : acceptable (Js.get obj field) = false).
  { rewrite Hget. simpl. rewrite (trim_blank x Hall). reflexivity. }
  rewrite (constructor_run s input obj Hl).
  unfold violated, required_fields in *. simpl in Hfield.
  decompose [or] Hfield; subst; try contradiction; simpl List.filter; rewrite Hacc.
  all: simpl negb; cbv iota.
  all: repeat match goal with
         | |- context [acceptable (Js.get ?o ?f)] =>
             destruct (acceptable (Js.get o f))
         end.
  all: simpl negb; cbv iota; eexists; (split; [ reflexivity | reflexivity ]).
Qed.

(** A configuration whose three fields are strings that start and end with
    a visible ASCII character is accepted, whatever lies in between. *)
Theorem bounded_configuration_is_accepted (s : State) (input : loc) (obj : JsObject)
    (subscriptionId apiToken userAgent : string) :
  heap s !! input = Some obj ->
  Js.get obj "subscriptionId" = JStr subscriptionId ->
  Js.get obj "apiToken" = JStr apiToken ->
  Js.get obj "userAgent" = JStr userAgent ->
  bounded subscriptionId = true ->
  bounded apiToken = true ->
  bounded userAgent = true ->
  exists (this : TickClient.t) (s' : State),
    TickClient.constructor input s = (Resolved this, s') /\
    heap s' !! TickClient.config this
    = Some [ ("subscriptionId", JStr subscriptionId); ("apiToken", JStr apiToken);
             ("userAgent", JStr userAgent) ].
Proof.
  intros Hl Hs Ht Hu Bs Bt Bu.
  assert (Hok : forall x, bounded x = true -> acceptable (JStr x) = true).
  { intros x Bx. simpl. rewrite (trim_bounded x Bx).
    destruct x; [ discriminate Bx | reflexivity ]. }
  assert (Hv : violated obj = []).
  { unfold violated, required_fields. simpl List.filter.
    rewrite Hs, Ht, Hu, !Hok by assumption. reflexivity. }
  eexists _, _. split.
  - rewrite (constructor_run s input obj Hl), Hv. reflexivity.
  - simpl. rewrite lookup_insert_eq. unfold copy_of. rewrite Hs, Ht, Hu. reflexivity.
Qed.

Lemma blank_field_is_rejected_witness :
  exists err : JsError,
    TickClient.constructor 1%positive (store 1%positive blank)
    = (Rejected err, store 1%positive blank) /\
    JsString.includes (error_message err)
                      ("apiToken" +:+ " is required and must be a non-empty string") = true.
Proof.
  apply (blank_field_is_rejected (store 1%positive blank) 1%positive blank "apiToken"
           (JsString.bytes [9%nat])).
  - reflexivity.
  - right. left. reflexivity.
  - reflexivity.
  - reflexivity.
Defined.

Lemma bounded_configuration_is_accepted_witness :
  exists (this : TickClient.t) (s' : State),
    TickClient.constructor 1%positive acme_store = (Resolved this, s') /\
    heap s' !! TickClient.config this
    = Some [ ("subscriptionId", JStr "acme"); ("apiToken", JStr "tok");
             ("userAgent", JStr "App/1.0") ].
Proof.
  apply (bounded_configuration_is_accepted acme_store 1%positive acme "acme" "tok" "App/1.0");
    reflexivity.
Defined.
